(** * Memos MCP server: request shaping and tool dispatch

    A shallow embedding of [src/server.py]: the identifier normaliser
    ([format_memo_id]), the header set ([get_headers]), the request builders
    ([create_memo] ... [delete_attachment]), the resource reader
    ([handle_read_resource]), the catalogues ([handle_list_tools],
    [handle_list_resources]) and the tool dispatcher ([handle_call_tool]).

    - Python values are an inductive type [value]; [None] is one of them, so
      the tests [v is not None] and [not v] of the source read as they are
      written.  JSON numbers are the integers.
    - Dictionaries indexed by string keys ([arguments], [payload], [params],
      [headers], [os.environ]) are [gmap string _].
    - A raised exception is the left summand of a result; a method call on a
      value of the wrong type raises as in Python.
    - The outbound HTTP traffic is the trace of a small state-and-error monad
      [IO]: each [await client.<method>(...)] appends its request to the trace.
    - What the repository takes from elsewhere (the environment, [urljoin],
      [json.dumps], the network and the remote API) is a record [runtime];
      every property holds for every [runtime]. *)

From Stdlib Require Import Ascii.
From stdpp Require Import gmap strings list fin_maps pretty.

Open Scope string_scope.
Set Warnings "-register-all".

(** ** Python values *)

(** The values an argument bag or a JSON document can hold.  Numbers are the
    integers; a dictionary nested inside a value keeps its items as a list. *)
Inductive value : Type :=
| VNone
| VBool (b : bool)
| VInt (n : Z)
| VStr (s : string)
| VList (l : list value)
| VDict (d : list (string * value)).

(** [bool(v)], the truth value tested by [if v:] and [not v]. *)
Definition truthy (v : value) : bool :=
  match v with
  | VNone => false
  | VBool b => b
  | VInt n => negb (n =? 0)%Z
  | VStr s => negb (String.eqb s "")
  | VList l => match l with [] => false | _ => true end
  | VDict d => match d with [] => false | _ => true end
  end.

(** [v is None] and [v is not None]. *)
Definition is_None (v : value) : bool :=
  match v with VNone => true | _ => false end.

Definition is_not_None (v : value) : bool := negb (is_None v).

(** [type(v).__name__]. *)
Definition type_name (v : value) : string :=
  match v with
  | VNone => "NoneType"
  | VBool _ => "bool"
  | VInt _ => "int"
  | VStr _ => "str"
  | VList _ => "list"
  | VDict _ => "dict"
  end.

(** [d.get(key, default)] and [d.get(key)]. *)
Definition get {A} (d : gmap string A) (key : string) (dflt : A) : A :=
  default dflt (d !! key).

Definition get_opt (d : gmap string value) (key : string) : value :=
  get d key VNone.

(** ** Strings *)

(** [s.rstrip(c)] for a one-character [c]. *)
Fixpoint rstrip (c : ascii) (s : string) : string :=
  match s with
  | EmptyString => EmptyString
  | String a s' =>
      match rstrip c s' with
      | EmptyString => if Ascii.eqb a c then EmptyString else String a EmptyString
      | r => String a r
      end
  end.

(** [s.split(sep)] for a one-character [sep]: never the empty list. *)
Fixpoint split (sep : ascii) (s : string) : list string :=
  match s with
  | EmptyString => [EmptyString]
  | String a s' =>
      if Ascii.eqb a sep then EmptyString :: split sep s'
      else match split sep s' with
           | [] => [String a EmptyString]
           | piece :: pieces => String a piece :: pieces
           end
  end.

(** [l[-1]] on the pieces of a split. *)
Definition last_piece (l : list string) : string := default "" (last l).

(** [sub in s]. *)
Definition contains (sub s : string) : Prop :=
  ∃ before after, s = before +:+ sub +:+ after.

(** ** Exceptions and HTTP data *)

Record Response : Type := mkResponse {
  status_code : Z;
  text : string;
}.

Inductive exception : Type :=
| HTTPStatusError (message : string) (response : Response)
| AttributeError (message : string)
| TypeError (message : string)
| ValueError (message : string)
| OtherError (message : string).

(** [str(e)]. *)
Definition str_exception (e : exception) : string :=
  match e with
  | HTTPStatusError m _ => m
  | AttributeError m | TypeError m | ValueError m | OtherError m => m
  end.

Inductive http_method : Type := GET | POST | PATCH | DELETE.

(** One call on the [httpx.AsyncClient]: the method and the keyword
    arguments given to it ([None] for a keyword that is not passed). *)
Record request : Type := mkRequest {
  method : http_method;
  url : string;
  headers : gmap string string;
  params : option (gmap string value);
  json : option (gmap string value);
  timeout : Z;
}.

Record TextContent : Type := mkTextContent {
  content_type : string;
  content_text : string;
}.

Definition text_content (t : string) : TextContent :=
  {| content_type := "text"; content_text := t |}.

(** What the program takes from its surroundings: the process environment,
    library functions whose code is not part of the repository, and the
    network with the remote API behind it. *)
Record runtime : Type := mkRuntime {
  environ : gmap string string;
  (** [urllib.parse.urljoin] *)
  urljoin : string → string → string;
  (** [repr] of a list or a dictionary *)
  container_repr : value → string;
  (** [json.dumps(v, indent=.., ensure_ascii=..)] *)
  json_dumps : option nat → bool → value → string;
  (** the reply to a request, or the transport failure it ends in *)
  http_send : request → exception + Response;
  (** [response.json()] *)
  response_json : Response → exception + value;
  (** the message httpx gives to an [HTTPStatusError] *)
  status_error_message : Response → string;
}.

(** ** The effect monad: a trace of requests, and exceptions *)

Definition IO (A : Type) : Type :=
  list request → (exception + A) * list request.

Definition io_ret {A} (a : A) : IO A := λ tr, (inr a, tr).

Definition io_bind {A B} (m : IO A) (k : A → IO B) : IO B :=
  λ tr, match m tr with
        | (inl e, tr') => (inl e, tr')
        | (inr a, tr') => k a tr'
        end.

Definition raise {A} (e : exception) : IO A := λ tr, (inl e, tr).

(** A computation that touches no network. *)
Definition lift {A} (r : exception + A) : IO A := λ tr, (r, tr).

(** [try: body  except Exception as e: handler(e)] *)
Definition try_except {A} (body : IO A) (handler : exception → IO A) : IO A :=
  λ tr, match body tr with
        | (inl e, tr') => handler e tr'
        | (inr a, tr') => (inr a, tr')
        end.

#[global] Instance IO_ret : MRet IO := @io_ret.
#[global] Instance IO_bind : MBind IO := λ A B k m, io_bind m k.

(** The result and the requests of a computation started on a silent wire. *)
Definition run {A} (m : IO A) : (exception + A) * list request := m [].

(** ** Method calls on values of unknown type *)

Definition no_attribute (v : value) (attr : string) : string :=
  "'" +:+ type_name v +:+ "' object has no attribute '" +:+ attr +:+ "'".

(** [v.startswith(prefix)] *)
Definition startswith (v : value) (prefix : string) : exception + bool :=
  match v with
  | VStr s => inr (String.prefix prefix s)
  | _ => inl (AttributeError (no_attribute v "startswith"))
  end.

(** [v.split("/")[-1]] *)
Definition split_last (v : value) : exception + value :=
  match v with
  | VStr s => inr (VStr (last_piece (split "/"%char s)))
  | _ => inl (AttributeError (no_attribute v "split"))
  end.

(** [len(v)] *)
Definition len (v : value) : exception + nat :=
  match v with
  | VStr s => inr (String.length s)
  | VList l => inr (length l)
  | VDict d => inr (length d)
  | _ => inl (TypeError ("object of type '" +:+ type_name v +:+ "' has no len()"))
  end.

(** ** Identifier normalisation *)

(** [format_memo_id], lines 1013-1026. *)
Definition format_memo_id (memo_id : value) : exception + value :=
  match startswith memo_id "memos/" with
  | inl e => inl e
  | inr true => split_last memo_id
  | inr false => inr memo_id
  end.

(** The same steps written in line for attachments, lines 1232-1233,
    1273-1274 and 1299-1300. *)
Definition format_attachment_id (attachment_id : value) : exception + value :=
  match startswith attachment_id "attachments/" with
  | inl e => inl e
  | inr true => split_last attachment_id
  | inr false => inr attachment_id
  end.

(** ** Configuration, headers and the HTTP executor *)

Section Server.

Context (rt : runtime).

(** [os.environ.get("MEMOS_BASE_URL", "")], [os.environ.get("MEMOS_API_KEY", "")] *)
Definition MEMOS_BASE_URL : string := get (environ rt) "MEMOS_BASE_URL" "".
Definition MEMOS_API_KEY : string := get (environ rt) "MEMOS_API_KEY" "".

(** [get_headers], lines 32-39. *)
Definition get_headers : gmap string string :=
  let headers : gmap string string := {[ "Content-Type" := "application/json" ]} in
  if negb (String.eqb MEMOS_API_KEY "")
  then <[ "Authorization" := "Bearer " +:+ MEMOS_API_KEY ]> headers
  else headers.

(** [str(v)], as an f-string field [{v}] renders it. *)
Definition str (v : value) : string :=
  match v with
  | VStr s => s
  | VNone => "None"
  | VBool true => "True"
  | VBool false => "False"
  | VInt n => pretty n
  | VList _ | VDict _ => container_repr rt v
  end.

(** [urljoin(MEMOS_BASE_URL.rstrip("/") + "/", path)] *)
Definition api_url (path : string) : string :=
  urljoin rt (rstrip "/"%char MEMOS_BASE_URL +:+ "/") path.

(** [await client.<method>(url, ...)]: the request goes on the wire, then the
    reply or the transport failure comes back. *)
Definition send (req : request) : IO Response :=
  λ tr, (http_send rt req, (tr ++ [req])%list).

Definition client_post (url : string) (headers : gmap string string)
    (json : gmap string value) (timeout : Z) : IO Response :=
  send (mkRequest POST url headers None (Some json) timeout).

Definition client_get (url : string) (headers : gmap string string)
    (params : option (gmap string value)) (timeout : Z) : IO Response :=
  send (mkRequest GET url headers params None timeout).

Definition client_patch (url : string) (headers : gmap string string)
    (json : gmap string value) (timeout : Z) : IO Response :=
  send (mkRequest PATCH url headers None (Some json) timeout).

Definition client_delete (url : string) (headers : gmap string string)
    (timeout : Z) : IO Response :=
  send (mkRequest DELETE url headers None None timeout).

(** [response.is_success] and [response.raise_for_status()] of httpx. *)
Definition is_success (response : Response) : bool :=
  (200 <=? status_code response)%Z && (status_code response <=? 299)%Z.

Definition raise_for_status (response : Response) : IO unit :=
  if is_success response then mret ()
  else raise (HTTPStatusError (status_error_message rt response) response).

(** [if cond: d[key] = v] *)
Definition set_if (cond : bool) (key : string) (v : value)
    (d : gmap string value) : gmap string value :=
  if cond then <[ key := v ]> d else d.

(** ** Request builders *)

(** The payload of [create_memo], lines 78-104. *)
Definition create_memo_payload
    (content visibility state pinned name create_time update_time
     display_time attachments relations property location : value)
    : gmap string value :=
  let payload : gmap string value :=
    {[ "content" := content;
       "visibility" := VStr ("VISIBILITY_" +:+ str visibility);
       "state" := VStr ("STATE_" +:+ str state) ]} in
  let payload := set_if (truthy pinned) "pinned" pinned payload in
  let payload := set_if (is_not_None name) "name" name payload in
  let payload := set_if (is_not_None create_time) "createTime" create_time payload in
  let payload := set_if (is_not_None update_time) "updateTime" update_time payload in
  let payload := set_if (is_not_None display_time) "displayTime" display_time payload in
  let payload := set_if (is_not_None attachments) "attachments" attachments payload in
  let payload := set_if (is_not_None relations) "relations" relations payload in
  let payload := set_if (is_not_None property) "property" property payload in
  let payload := set_if (is_not_None location) "location" location payload in
  payload.

(** [create_memo], lines 42-114. *)
Definition create_memo
    (content visibility state pinned name create_time update_time
     display_time attachments relations property location : value)
    : IO value :=
  let url := api_url "api/v1/memos" in
  let payload :=
    create_memo_payload content visibility state pinned name create_time
      update_time display_time attachments relations property location in
  response ← client_post url get_headers payload 30;
  _ ← raise_for_status response;
  lift (response_json rt response).

(** The query parameters of [list_memos], lines 144-157. *)
Definition list_memos_params
    (page_size page_token state order_by filter show_deleted : value)
    : gmap string value :=
  let params : gmap string value := ∅ in
  let params := set_if (is_not_None page_size) "pageSize" page_size params in
  let params := set_if (is_not_None page_token) "pageToken" page_token params in
  let params :=
    set_if (is_not_None state) "state" (VStr ("STATE_" +:+ str state)) params in
  let params := set_if (is_not_None order_by) "orderBy" order_by params in
  let params := set_if (is_not_None filter) "filter" filter params in
  let params :=
    set_if (is_not_None show_deleted) "showDeleted"
      (VStr (if truthy show_deleted then "true" else "false")) params in
  params.

(** [list_memos], lines 117-167. *)
Definition list_memos
    (page_size page_token state order_by filter show_deleted : value)
    : IO value :=
  let url := api_url "api/v1/memos" in
  let params :=
    list_memos_params page_size page_token state order_by filter show_deleted in
  response ← client_get url get_headers (Some params) 30;
  _ ← raise_for_status response;
  lift (response_json rt response).

(** [get_memo], lines 170-189. *)
Definition get_memo (memo_id : value) : IO value :=
  let url := api_url ("api/v1/memos/" +:+ str memo_id) in
  response ← client_get url get_headers None 30;
  _ ← raise_for_status response;
  lift (response_json rt response).

(** The payload of [update_memo], lines 228-250. *)
Definition update_memo_payload
    (content visibility state pinned create_time update_time display_time
     attachments relations property location : value)
    : gmap string value :=
  let payload : gmap string value := ∅ in
  let payload := set_if (is_not_None content) "content" content payload in
  let payload :=
    set_if (is_not_None visibility) "visibility"
      (VStr ("VISIBILITY_" +:+ str visibility)) payload in
  let payload :=
    set_if (is_not_None state) "state" (VStr ("STATE_" +:+ str state)) payload in
  let payload := set_if (is_not_None pinned) "pinned" pinned payload in
  let payload := set_if (is_not_None create_time) "createTime" create_time payload in
  let payload := set_if (is_not_None update_time) "updateTime" update_time payload in
  let payload := set_if (is_not_None display_time) "displayTime" display_time payload in
  let payload := set_if (is_not_None attachments) "attachments" attachments payload in
  let payload := set_if (is_not_None relations) "relations" relations payload in
  let payload := set_if (is_not_None property) "property" property payload in
  let payload := set_if (is_not_None location) "location" location payload in
  payload.

(** [update_memo], lines 192-260. *)
Definition update_memo
    (memo_id content visibility state pinned create_time update_time
     display_time attachments relations property location : value)
    : IO value :=
  let url := api_url ("api/v1/memos/" +:+ str memo_id) in
  let payload :=
    update_memo_payload content visibility state pinned create_time
      update_time display_time attachments relations property location in
  response ← client_patch url get_headers payload 30;
  _ ← raise_for_status response;
  lift (response_json rt response).

(** [delete_memo], lines 263-278. *)
Definition delete_memo (memo_id : value) : IO unit :=
  let url := api_url ("api/v1/memos/" +:+ str memo_id) in
  response ← client_delete url get_headers 30;
  raise_for_status response.

(** The query parameters of [list_memo_attachments], lines 299-303. *)
Definition list_memo_attachments_params (page_size page_token : value)
    : gmap string value :=
  let params : gmap string value := ∅ in
  let params := set_if (is_not_None page_size) "pageSize" page_size params in
  let params := set_if (is_not_None page_token) "pageToken" page_token params in
  params.

(** [list_memo_attachments], lines 281-313. *)
Definition list_memo_attachments (memo_id page_size page_token : value)
    : IO value :=
  let url := api_url ("api/v1/memos/" +:+ str memo_id +:+ "/attachments") in
  let params := list_memo_attachments_params page_size page_token in
  response ← client_get url get_headers (Some params) 30;
  _ ← raise_for_status response;
  lift (response_json rt response).

(** The payload of [set_memo_attachments], lines 340-343. *)
Definition set_memo_attachments_payload (memo_id attachments : value)
    : gmap string value :=
  {[ "name" := VStr ("memos/" +:+ str memo_id);
     "attachments" := attachments ]}.

(** [set_memo_attachments], lines 316-352. *)
Definition set_memo_attachments (memo_id attachments : value) : IO unit :=
  let url := api_url ("api/v1/memos/" +:+ str memo_id +:+ "/attachments") in
  let payload := set_memo_attachments_payload memo_id attachments in
  response ← client_patch url get_headers payload 30;
  raise_for_status response.

(** The payload of [create_attachment], lines 379-392. *)
Definition create_attachment_payload
    (filename type content external_link memo : value) : gmap string value :=
  let payload : gmap string value :=
    {[ "filename" := filename; "type" := type ]} in
  let payload := set_if (is_not_None content) "content" content payload in
  let payload :=
    set_if (is_not_None external_link) "externalLink" external_link payload in
  let payload := set_if (is_not_None memo) "memo" memo payload in
  payload.

(** [create_attachment], lines 355-402. *)
Definition create_attachment
    (filename type attachment_id content external_link memo : value)
    : IO value :=
  let url := api_url "api/v1/attachments" in
  let url :=
    if is_not_None attachment_id
    then url +:+ "?attachmentId=" +:+ str attachment_id
    else url in
  let payload :=
    create_attachment_payload filename type content external_link memo in
  response ← client_post url get_headers payload 30;
  _ ← raise_for_status response;
  lift (response_json rt response).

(** [get_attachment], lines 405-424. *)
Definition get_attachment (attachment_id : value) : IO value :=
  let url := api_url ("api/v1/attachments/" +:+ str attachment_id) in
  response ← client_get url get_headers None 30;
  _ ← raise_for_status response;
  lift (response_json rt response).

(** The query parameters of [list_attachments], lines 447-455. *)
Definition list_attachments_params
    (page_size page_token filter order_by : value) : gmap string value :=
  let params : gmap string value := ∅ in
  let params := set_if (is_not_None page_size) "pageSize" page_size params in
  let params := set_if (is_not_None page_token) "pageToken" page_token params in
  let params := set_if (is_not_None filter) "filter" filter params in
  let params := set_if (is_not_None order_by) "orderBy" order_by params in
  params.

(** [list_attachments], lines 427-465. *)
Definition list_attachments
    (page_size page_token filter order_by : value) : IO value :=
  let url := api_url "api/v1/attachments" in
  let params := list_attachments_params page_size page_token filter order_by in
  response ← client_get url get_headers (Some params) 30;
  _ ← raise_for_status response;
  lift (response_json rt response).

(** The payload of [update_attachment], lines 497-507. *)
Definition update_attachment_payload
    (filename type content external_link memo : value) : gmap string value :=
  let payload : gmap string value := ∅ in
  let payload := set_if (is_not_None filename) "filename" filename payload in
  let payload := set_if (is_not_None type) "type" type payload in
  let payload := set_if (is_not_None content) "content" content payload in
  let payload :=
    set_if (is_not_None external_link) "externalLink" external_link payload in
  let payload := set_if (is_not_None memo) "memo" memo payload in
  payload.

(** [update_attachment], lines 468-517. *)
Definition update_attachment
    (attachment_id update_mask filename type content external_link memo : value)
    : IO value :=
  let url := api_url ("api/v1/attachments/" +:+ str attachment_id) in
  let url := url +:+ "?updateMask=" +:+ str update_mask in
  let payload :=
    update_attachment_payload filename type content external_link memo in
  response ← client_patch url get_headers payload 30;
  _ ← raise_for_status response;
  lift (response_json rt response).

(** [delete_attachment], lines 520-535. *)
Definition delete_attachment (attachment_id : value) : IO unit :=
  let url := api_url ("api/v1/attachments/" +:+ str attachment_id) in
  response ← client_delete url get_headers 30;
  raise_for_status response.

(** ** Resources *)

(** [handle_read_resource], lines 557-573.  A returned string is [inr]; the
    [raise] of the last branch is [inl]. *)
Definition handle_read_resource (uri : string) : IO string :=
  if String.eqb uri "memos://memos" then
    try_except
      (memos ← list_memos (VInt 100) VNone VNone VNone VNone VNone;
       mret (json_dumps rt (Some 2) false memos))
      (λ e, mret (json_dumps rt None true
                    (VDict [("error", VStr (str_exception e))])))
  else if String.eqb uri "memos://config" then
    let config :=
      VDict [("base_url", VStr MEMOS_BASE_URL);
             ("has_api_key", VBool (negb (String.eqb MEMOS_API_KEY "")))] in
    mret (json_dumps rt (Some 2) true config)
  else
    raise (ValueError ("Unknown resource: " +:+ uri)).

(** ** The tool dispatcher *)

(** A successful read: [json.dumps(result, indent=2, ensure_ascii=False)]. *)
Definition json_text (result : value) : list TextContent :=
  [text_content (json_dumps rt (Some 2) false result)].

(** Branch [create_memo], lines 1033-1070. *)
Definition call_create_memo (arguments : gmap string value)
    : IO (list TextContent) :=
  let content := get arguments "content" (VStr "") in
  let visibility := get arguments "visibility" (VStr "PRIVATE") in
  let state := get arguments "state" (VStr "NORMAL") in
  let pinned := get arguments "pinned" (VBool false) in
  let name := get_opt arguments "name" in
  let create_time := get_opt arguments "createTime" in
  let update_time := get_opt arguments "updateTime" in
  let display_time := get_opt arguments "displayTime" in
  let attachments := get_opt arguments "attachments" in
  let relations := get_opt arguments "relations" in
  let property := get_opt arguments "property" in
  let location := get_opt arguments "location" in
  if negb (truthy content) then
    mret [text_content "Error: content is required"]
  else
    result ← create_memo content visibility state pinned name create_time
               update_time display_time attachments relations property location;
    mret (json_text result).

(** Branch [list_memos], lines 1072-1094. *)
Definition call_list_memos (arguments : gmap string value)
    : IO (list TextContent) :=
  let page_size := get_opt arguments "pageSize" in
  let page_token := get_opt arguments "pageToken" in
  let state := get_opt arguments "state" in
  let order_by := get_opt arguments "orderBy" in
  let filter := get_opt arguments "filter" in
  let show_deleted := get_opt arguments "showDeleted" in
  result ← list_memos page_size page_token state order_by filter show_deleted;
  mret (json_text result).

(** Branch [get_memo], lines 1096-1109. *)
Definition call_get_memo (arguments : gmap string value)
    : IO (list TextContent) :=
  let memo_id := get arguments "memoId" (VStr "") in
  if negb (truthy memo_id) then
    mret [text_content "Error: memo_id is required"]
  else
    formatted_id ← lift (format_memo_id memo_id);
    result ← get_memo formatted_id;
    mret (json_text result).

(** Branch [update_memo], lines 1111-1137. *)
Definition call_update_memo (arguments : gmap string value)
    : IO (list TextContent) :=
  let memo_id := get arguments "memoId" (VStr "") in
  if negb (truthy memo_id) then
    mret [text_content "Error: memo_id is required"]
  else
    formatted_id ← lift (format_memo_id memo_id);
    result ← update_memo formatted_id
               (get_opt arguments "content")
               (get_opt arguments "visibility")
               (get_opt arguments "state")
               (get_opt arguments "pinned")
               (get_opt arguments "createTime")
               (get_opt arguments "updateTime")
               (get_opt arguments "displayTime")
               (get_opt arguments "attachments")
               (get_opt arguments "relations")
               (get_opt arguments "property")
               (get_opt arguments "location");
    mret (json_text result).

(** Branch [delete_memo], lines 1139-1152. *)
Definition call_delete_memo (arguments : gmap string value)
    : IO (list TextContent) :=
  let memo_id := get arguments "memoId" (VStr "") in
  if negb (truthy memo_id) then
    mret [text_content "Error: memo_id is required"]
  else
    formatted_id ← lift (format_memo_id memo_id);
    _ ← delete_memo formatted_id;
    mret [text_content ("Successfully deleted memo: " +:+ str memo_id)].

(** Branch [list_memo_attachments], lines 1154-1174. *)
Definition call_list_memo_attachments (arguments : gmap string value)
    : IO (list TextContent) :=
  let memo_id := get arguments "memo_id" (VStr "") in
  if negb (truthy memo_id) then
    mret [text_content "Error: memo_id is required"]
  else
    formatted_id ← lift (format_memo_id memo_id);
    let page_size := get_opt arguments "pageSize" in
    let page_token := get_opt arguments "pageToken" in
    result ← list_memo_attachments formatted_id page_size page_token;
    mret (json_text result).

(** Branch [set_memo_attachments], lines 1176-1195. *)
Definition call_set_memo_attachments (arguments : gmap string value)
    : IO (list TextContent) :=
  let memo_id := get arguments "memoId" (VStr "") in
  let attachments := get_opt arguments "attachments" in
  if negb (truthy memo_id) then
    mret [text_content "Error: memo_id is required"]
  else if is_None attachments then
    mret [text_content "Error: attachments is required"]
  else
    formatted_id ← lift (format_memo_id memo_id);
    _ ← set_memo_attachments formatted_id attachments;
    n ← lift (len attachments);
    mret [text_content ("Successfully set " +:+ pretty n +:+
                        " attachment(s) for memo: " +:+ str memo_id)].

(** Branch [create_attachment], lines 1197-1224. *)
Definition call_create_attachment (arguments : gmap string value)
    : IO (list TextContent) :=
  let filename := get arguments "filename" (VStr "") in
  let type := get arguments "type" (VStr "") in
  let attachment_id := get_opt arguments "attachmentId" in
  let content := get_opt arguments "content" in
  let external_link := get_opt arguments "externalLink" in
  let memo := get_opt arguments "memo" in
  if negb (truthy filename) then
    mret [text_content "Error: filename is required"]
  else if negb (truthy type) then
    mret [text_content "Error: type is required"]
  else
    result ← create_attachment filename type attachment_id content
               external_link memo;
    mret (json_text result).

(** Branch [get_attachment], lines 1226-1242. *)
Definition call_get_attachment (arguments : gmap string value)
    : IO (list TextContent) :=
  let attachment_id := get arguments "attachmentId" (VStr "") in
  if negb (truthy attachment_id) then
    mret [text_content "Error: attachment_id is required"]
  else
    attachment_id ← lift (format_attachment_id attachment_id);
    result ← get_attachment attachment_id;
    mret (json_text result).

(** Branch [list_attachments], lines 1244-1262. *)
Definition call_list_attachments (arguments : gmap string value)
    : IO (list TextContent) :=
  let page_size := get_opt arguments "pageSize" in
  let page_token := get_opt arguments "pageToken" in
  let filter := get_opt arguments "filter" in
  let order_by := get_opt arguments "orderBy" in
  result ← list_attachments page_size page_token filter order_by;
  mret (json_text result).

(** Branch [update_attachment], lines 1264-1291. *)
Definition call_update_attachment (arguments : gmap string value)
    : IO (list TextContent) :=
  let attachment_id := get arguments "attachmentId" (VStr "") in
  let update_mask := get arguments "updateMask" (VStr "") in
  if negb (truthy attachment_id) then
    mret [text_content "Error: attachment_id is required"]
  else if negb (truthy update_mask) then
    mret [text_content "Error: update_mask is required"]
  else
    attachment_id ← lift (format_attachment_id attachment_id);
    result ← update_attachment attachment_id update_mask
               (get_opt arguments "filename")
               (get_opt arguments "type")
               (get_opt arguments "content")
               (get_opt arguments "externalLink")
               (get_opt arguments "memo");
    mret (json_text result).

(** Branch [delete_attachment], lines 1293-1309: the confirmation names the
    identifier after it was normalised. *)
Definition call_delete_attachment (arguments : gmap string value)
    : IO (list TextContent) :=
  let attachment_id := get arguments "attachmentId" (VStr "") in
  if negb (truthy attachment_id) then
    mret [text_content "Error: attachment_id is required"]
  else
    attachment_id ← lift (format_attachment_id attachment_id);
    _ ← delete_attachment attachment_id;
    mret [text_content ("Successfully deleted attachment: " +:+
                        str attachment_id)].

(** The body of the [try] block, lines 1033-1312. *)
Definition call_tool (name : string) (arguments : gmap string value)
    : IO (list TextContent) :=
  if String.eqb name "create_memo" then call_create_memo arguments
  else if String.eqb name "list_memos" then call_list_memos arguments
  else if String.eqb name "get_memo" then call_get_memo arguments
  else if String.eqb name "update_memo" then call_update_memo arguments
  else if String.eqb name "delete_memo" then call_delete_memo arguments
  else if String.eqb name "list_memo_attachments"
       then call_list_memo_attachments arguments
  else if String.eqb name "set_memo_attachments"
       then call_set_memo_attachments arguments
  else if String.eqb name "create_attachment" then call_create_attachment arguments
  else if String.eqb name "get_attachment" then call_get_attachment arguments
  else if String.eqb name "list_attachments" then call_list_attachments arguments
  else if String.eqb name "update_attachment" then call_update_attachment arguments
  else if String.eqb name "delete_attachment" then call_delete_attachment arguments
  else mret [text_content ("Unknown tool: " +:+ name)].

(** The two [except] clauses, lines 1314-1322. *)
Definition error_response (e : exception) : IO (list TextContent) :=
  match e with
  | HTTPStatusError _ response =>
      mret [text_content ("HTTP Error " +:+ pretty (status_code response) +:+
                          ": " +:+ text response)]
  | _ => mret [text_content ("Error: " +:+ str_exception e)]
  end.

(** [handle_call_tool], lines 1029-1322. *)
Definition handle_call_tool (name : string) (arguments : gmap string value)
    : IO (list TextContent) :=
  try_except (call_tool name arguments) error_response.

End Server.

(** ** The tool catalogue *)

(** A tool of [handle_list_tools] with the part of its [inputSchema] that
    constrains a call: the property names and the [required] list. *)
Record Tool : Type := mkTool {
  tool_name : string;
  properties : list string;
  required : list string;
}.

(** [handle_list_tools], lines 576-1010. *)
Definition handle_list_tools : list Tool :=
  [ mkTool "create_memo"
      ["content"; "visibility"; "state"; "pinned"; "name"; "createTime";
       "updateTime"; "displayTime"; "attachments"; "relations"; "property";
       "location"]
      ["content"];
    mkTool "list_memos"
      ["pageSize"; "pageToken"; "state"; "orderBy"; "filter"; "showDeleted"]
      [];
    mkTool "get_memo" ["memo_id"] ["memo_id"];
    mkTool "update_memo"
      ["memo_id"; "content"; "visibility"; "state"; "pinned"; "createTime";
       "updateTime"; "displayTime"; "attachments"; "relations"; "property";
       "location"]
      ["memo_id"];
    mkTool "delete_memo" ["memo_id"] ["memo_id"];
    mkTool "list_memo_attachments" ["memoId"; "pageSize"; "pageToken"] ["memoId"];
    mkTool "set_memo_attachments" ["memoId"; "attachments"]
      ["memoId"; "attachments"];
    mkTool "create_attachment"
      ["filename"; "type"; "attachmentId"; "content"; "externalLink"; "memo"]
      ["filename"; "type"];
    mkTool "get_attachment" ["attachmentId"] ["attachmentId"];
    mkTool "list_attachments" ["pageSize"; "pageToken"; "filter"; "orderBy"] [];
    mkTool "update_attachment"
      ["attachmentId"; "updateMask"; "filename"; "type"; "content";
       "externalLink"; "memo"]
      ["attachmentId"; "updateMask"];
    mkTool "delete_attachment" ["attachmentId"] ["attachmentId"] ].

(** The [required] list the catalogue publishes for a tool name. *)
Definition required_arguments (name : string) : list string :=
  match List.find (λ t, String.eqb (tool_name t) name) handle_list_tools with
  | Some t => required t
  | None => []
  end.

Definition tool_names : list string := tool_name <$> handle_list_tools.

(** ** The resource catalogue *)

Record Resource : Type := mkResource {
  resource_uri : string;
  resource_name : string;
  resource_description : string;
  resource_mimeType : string;
}.

(** [handle_list_resources], lines 538-554. *)
Definition handle_list_resources : list Resource :=
  [ mkResource "memos://memos" "All Memos"
      "List all memos from your Memos instance" "application/json";
    mkResource "memos://config" "Configuration"
      "Current Memos server configuration" "application/json" ].

Definition resource_uris : list string :=
  resource_uri <$> handle_list_resources.

(** * Vocabulary of the properties *)

(** ** Strings *)

Fixpoint has_char (c : ascii) (s : string) : bool :=
  match s with
  | EmptyString => false
  | String a s' => Ascii.eqb a c || has_char c s'
  end.

Fixpoint last_char (s : string) : option ascii :=
  match s with
  | EmptyString => None
  | String a s' => match last_char s' with None => Some a | Some b => Some b end
  end.

(** ** Traces *)

(** Every request a computation adds to the trace satisfies [Q]. *)
Definition emits (Q : request → Prop) {A} (m : IO A) : Prop :=
  ∀ tr, ∃ reqs, (m tr).2 = (tr ++ reqs)%list ∧ Forall Q reqs.

Definition sent_with (h : gmap string string) (req : request) : Prop :=
  headers req = h.

(** The computation sends exactly one request; it has a JSON body, and the
    body satisfies [P]. *)
Definition sends_body {A} (m : IO A) (P : gmap string value → Prop) : Prop :=
  ∀ tr, ∃ req body,
    (m tr).2 = (tr ++ [req])%list ∧ json req = Some body ∧ P body.

(** The computation sends exactly one request; it has query parameters, and
    they satisfy [P]. *)
Definition sends_params {A} (m : IO A) (P : gmap string value → Prop) : Prop :=
  ∀ tr, ∃ req p,
    (m tr).2 = (tr ++ [req])%list ∧ params req = Some p ∧ P p.

(** A request whose query parameters, if it has any, lack the key [k]. *)
Definition without_param (k : string) (req : request) : Prop :=
  ∀ p, params req = Some p → p !! k = None.

(** What the executor hands back for a request: the reply if its status is a
    success, the exception otherwise. *)
Definition reply_checked (rt : runtime) (req : request) : exception + Response :=
  match http_send rt req with
  | inl e => inl e
  | inr response =>
      if is_success response then inr response
      else inl (HTTPStatusError (status_error_message rt response) response)
  end.

Definition reply_json (rt : runtime) (req : request) : exception + value :=
  match reply_checked rt req with
  | inl e => inl e
  | inr response => response_json rt response
  end.

Definition reply_unit (rt : runtime) (req : request) : exception + unit :=
  match reply_checked rt req with
  | inl e => inl e
  | inr _ => inr ()
  end.

(** ** Fields of the list and update operations *)

(** The optional parameters of each list operation, under the key the query
    string uses for them. *)
Definition list_memos_fields
    (page_size page_token state order_by filter show_deleted : value)
    : list (string * value) :=
  [("pageSize", page_size); ("pageToken", page_token); ("state", state);
   ("orderBy", order_by); ("filter", filter); ("showDeleted", show_deleted)].

Definition list_memo_attachments_fields (page_size page_token : value)
    : list (string * value) :=
  [("pageSize", page_size); ("pageToken", page_token)].

Definition list_attachments_fields
    (page_size page_token filter order_by : value) : list (string * value) :=
  [("pageSize", page_size); ("pageToken", page_token); ("filter", filter);
   ("orderBy", order_by)].

(** The value a query parameter is sent as. *)
Definition query_value (rt : runtime) (key : string) (v : value) : value :=
  if String.eqb key "state" then VStr ("STATE_" +:+ str rt v)
  else if String.eqb key "showDeleted"
       then VStr (if truthy v then "true" else "false")
  else v.

(** The optional fields of each update operation, under the key the JSON body
    uses for them. *)
Definition update_memo_fields
    (content visibility state pinned create_time update_time display_time
     attachments relations property location : value) : list (string * value) :=
  [("content", content); ("visibility", visibility); ("state", state);
   ("pinned", pinned); ("createTime", create_time);
   ("updateTime", update_time); ("displayTime", display_time);
   ("attachments", attachments); ("relations", relations);
   ("property", property); ("location", location)].

Definition update_attachment_fields
    (filename type content external_link memo : value) : list (string * value) :=
  [("filename", filename); ("type", type); ("content", content);
   ("externalLink", external_link); ("memo", memo)].

(** The value a body field is sent as. *)
Definition body_value (rt : runtime) (key : string) (v : value) : value :=
  if String.eqb key "visibility" then VStr ("VISIBILITY_" +:+ str rt v)
  else if String.eqb key "state" then VStr ("STATE_" +:+ str rt v)
  else v.

(** ** Responses of the dispatcher *)

(** The text the two [except] clauses give to an exception. *)
Definition error_text (e : exception) : string :=
  match e with
  | HTTPStatusError _ response =>
      "HTTP Error " +:+ pretty (status_code response) +:+ ": " +:+ text response
  | _ => "Error: " +:+ str_exception e
  end.

Definition is_status_error (e : exception) : bool :=
  match e with HTTPStatusError _ _ => true | _ => false end.

(** The outcome of a call that validation stopped: one message
    ["Error: ... is required"], and nothing on the wire. *)
Definition validation_error
    (out : (exception + list TextContent) * list request) : Prop :=
  ∃ a, out = (inr [text_content ("Error: " +:+ a +:+ " is required")], []).

(** The argument is missing, [None] or empty: its truth value is false. *)
Definition missing_or_empty (arguments : gmap string value) (a : string) : bool :=
  negb (truthy (get_opt arguments a)).

(** What the dispatcher refuses in a required argument: a false truth value,
    except for the [attachments] of [set_memo_attachments], refused only when
    missing or [None]. *)
Definition rejected (name : string) (arguments : gmap string value)
    (a : string) : bool :=
  if String.eqb name "set_memo_attachments" && String.eqb a "attachments"
  then is_None (get_opt arguments a)
  else missing_or_empty arguments a.

(** The tools whose branch of the dispatcher reads every required argument
    under the name the catalogue publishes for it. *)
Definition tools_reading_schema_names : list string :=
  ["create_memo"; "list_memos"; "set_memo_attachments"; "create_attachment";
   "get_attachment"; "list_attachments"; "update_attachment";
   "delete_attachment"].

(** The identifier arguments that are given are strings, as the catalogue
    types them. *)
Definition identifiers_are_str (arguments : gmap string value) : Prop :=
  ∀ a v, a ∈ ["memoId"; "attachmentId"] → arguments !! a = Some v →
         ∃ s, v = VStr s.

(** ** Sample surroundings *)

(** A remote API that answers every request with [200] and an empty object. *)
Definition sample_runtime : runtime :=
  {| environ := {[ "MEMOS_BASE_URL" := "http://localhost:5230/" ]};
     urljoin := λ base path, base +:+ path;
     container_repr := λ _, "[]";
     json_dumps := λ _ _ _, "{}";
     http_send := λ _, inr (mkResponse 200 "{}");
     response_json := λ _, inr (VDict []);
     status_error_message := λ _, "" |}.

(** A remote API that knows no resource: every request is answered [404]. *)
Definition not_found_runtime : runtime :=
  {| environ := {[ "MEMOS_BASE_URL" := "http://localhost:5230";
                   "MEMOS_API_KEY" := "secret" ]};
     urljoin := λ base path, base +:+ path;
     container_repr := λ _, "[]";
     json_dumps := λ _ _ _, "{}";
     http_send := λ _, inr (mkResponse 404 "attachment not found");
     response_json := λ _, inr (VDict []);
     status_error_message := λ _, "Client error '404 Not Found'" |}.

(** ** Vocabulary of the further properties *)

(** The tools that answer with the JSON document of the remote API. *)
Definition json_tools : list string :=
  ["create_memo"; "list_memos"; "get_memo"; "update_memo";
   "list_memo_attachments"; "create_attachment"; "get_attachment";
   "list_attachments"; "update_attachment"].

(** The HTTP method of the operation behind a tool. *)
Definition tool_method (name : string) : http_method :=
  if String.eqb name "create_memo" || String.eqb name "create_attachment"
  then POST
  else if String.eqb name "update_memo"
          || String.eqb name "set_memo_attachments"
          || String.eqb name "update_attachment"
  then PATCH
  else if String.eqb name "delete_memo" || String.eqb name "delete_attachment"
  then DELETE
  else GET.

Definition sent_by (m : http_method) (req : request) : Prop := method req = m.


(** The key under which a branch of the dispatcher reads the identifier of the
    memo or attachment it works on. *)
Definition identifier_key (name : string) : option string :=
  if String.eqb name "get_memo" || String.eqb name "update_memo"
     || String.eqb name "delete_memo" || String.eqb name "set_memo_attachments"
  then Some "memoId"
  else if String.eqb name "list_memo_attachments" then Some "memo_id"
  else if String.eqb name "get_attachment"
          || String.eqb name "update_attachment"
          || String.eqb name "delete_attachment"
  then Some "attachmentId"
  else None.

(** The tools whose branch reads the identifier under another key than the
    one the catalogue requires. *)
Definition tools_reading_other_names : list string :=
  ["get_memo"; "update_memo"; "delete_memo"; "list_memo_attachments"].

(** The keys of the argument bag a branch of the dispatcher reads. *)
Definition read_keys (name : string) : list string :=
  if String.eqb name "create_memo" then
    ["content"; "visibility"; "state"; "pinned"; "name"; "createTime";
     "updateTime"; "displayTime"; "attachments"; "relations"; "property";
     "location"]
  else if String.eqb name "list_memos" then
    ["pageSize"; "pageToken"; "state"; "orderBy"; "filter"; "showDeleted"]
  else if String.eqb name "get_memo" then ["memoId"]
  else if String.eqb name "update_memo" then
    ["memoId"; "content"; "visibility"; "state"; "pinned"; "createTime";
     "updateTime"; "displayTime"; "attachments"; "relations"; "property";
     "location"]
  else if String.eqb name "delete_memo" then ["memoId"]
  else if String.eqb name "list_memo_attachments" then
    ["memo_id"; "pageSize"; "pageToken"]
  else if String.eqb name "set_memo_attachments" then ["memoId"; "attachments"]
  else if String.eqb name "create_attachment" then
    ["filename"; "type"; "attachmentId"; "content"; "externalLink"; "memo"]
  else if String.eqb name "get_attachment" then ["attachmentId"]
  else if String.eqb name "list_attachments" then
    ["pageSize"; "pageToken"; "filter"; "orderBy"]
  else if String.eqb name "update_attachment" then
    ["attachmentId"; "updateMask"; "filename"; "type"; "content";
     "externalLink"; "memo"]
  else if String.eqb name "delete_attachment" then ["attachmentId"]
  else [].

(** The fields [create_memo] copies when they are not [None], under the key
    the JSON body uses for them. *)
Definition create_memo_optional_fields
    (name create_time update_time display_time attachments relations property
     location : value) : list (string * value) :=
  [("name", name); ("createTime", create_time); ("updateTime", update_time);
   ("displayTime", display_time); ("attachments", attachments);
   ("relations", relations); ("property", property); ("location", location)].

Definition create_attachment_optional_fields
    (content external_link memo : value) : list (string * value) :=
  [("content", content); ("externalLink", external_link); ("memo", memo)].

(** The computation sends exactly one request, and the request satisfies
    [P]. *)
Definition sends_request {A} (m : IO A) (P : request → Prop) : Prop :=
  ∀ tr, ∃ req, (m tr).2 = (tr ++ [req])%list ∧ P req.

(** The same surroundings with another process environment. *)
Definition with_environ (rt : runtime) (env : gmap string string) : runtime :=
  {| environ := env;
     urljoin := urljoin rt;
     container_repr := container_repr rt;
     json_dumps := json_dumps rt;
     http_send := http_send rt;
     response_json := response_json rt;
     status_error_message := status_error_message rt |}.

(** * Properties *)

(** ** Strings *)

Lemma append_empty_r s : s +:+ "" = s.
Proof.
  induction s as [|a s IH]; [done|].
  change (String a (s +:+ "") = String a s). by rewrite IH.
Qed.

Lemma append_assoc s t u : (s +:+ t) +:+ u = s +:+ (t +:+ u).
Proof.
  induction s as [|a s IH]; [done|].
  change (String a ((s +:+ t) +:+ u) = String a (s +:+ (t +:+ u))).
  by rewrite IH.
Qed.

Lemma contains_middle a b c : contains b (a +:+ b +:+ c).
Proof. by exists a, c. Qed.

Lemma contains_end a b : contains b (a +:+ b).
Proof. exists a, "". by rewrite append_empty_r. Qed.

Lemma split_pieces_no_sep sep s :
  Forall (λ piece, has_char sep piece = false) (split sep s).
Proof.
  induction s as [|a s IH]; cbn [split].
  - by constructor.
  - destruct (Ascii.eqb a sep) eqn:Ha.
    + by constructor.
    + destruct (split sep s) as [|piece pieces].
      * constructor; [|done]. simpl. by rewrite Ha.
      * inversion_clear IH as [|? ? Hpiece Hpieces].
        constructor; [|done]. simpl. by rewrite Ha, Hpiece.
Qed.

Lemma last_piece_no_sep sep s :
  has_char sep (last_piece (split sep s)) = false.
Proof.
  unfold last_piece.
  pose proof (split_pieces_no_sep sep s) as Hall.
  destruct (last (split sep s)) as [piece|] eqn:Hlast; simpl; [|done].
  apply last_Some in Hlast as [front Hfront]. rewrite Hfront in Hall.
  apply Forall_app in Hall as [_ Hall]. by inversion Hall.
Qed.

Lemma prefix_has_char c p s :
  String.prefix p s = true → has_char c p = true → has_char c s = true.
Proof.
  revert s. induction p as [|a p IH]; intros s Hp Hc; [done|].
  destruct s as [|b s]; simpl in *; [done|].
  destruct (ascii_dec a b) as [->|]; [|done].
  apply orb_true_iff in Hc as [Hc|Hc].
  - by rewrite Hc.
  - rewrite (IH _ Hp Hc). apply orb_true_r.
Qed.

Lemma no_sep_not_prefixed c p s :
  has_char c p = true → has_char c s = false → String.prefix p s = false.
Proof.
  intros Hp Hs. destruct (String.prefix p s) eqn:E; [|done].
  by rewrite (prefix_has_char c p s E Hp) in Hs.
Qed.

Lemma last_char_app s t :
  last_char (s +:+ t)
  = match last_char t with Some c => Some c | None => last_char s end.
Proof.
  induction s as [|a s IH].
  { change ("" +:+ t) with t. by destruct (last_char t). }
  change (last_char (String a (s +:+ t))
          = match last_char t with
            | Some c => Some c
            | None => last_char (String a s)
            end).
  simpl. rewrite IH. by destruct (last_char t), (last_char s).
Qed.

(** The message of a failed method call never reads as a validation
    message: it ends in a quote. *)
Lemma no_attribute_not_required v attr a :
  no_attribute v attr ≠ a +:+ " is required".
Proof.
  intros H. apply (f_equal last_char) in H. unfold no_attribute in H.
  rewrite !last_char_app in H. simpl in H. done.
Qed.

(** ** Values *)

Lemma truthy_str s : s ≠ "" → truthy (VStr s) = true.
Proof. intros Hs. simpl. by destruct (String.eqb_spec s ""). Qed.

Lemma truthy_get_opt (arguments : gmap string value) a :
  truthy (get arguments a (VStr "")) = truthy (get_opt arguments a).
Proof. unfold get_opt, get. by destruct (arguments !! a). Qed.

Lemma is_not_None_true v : is_not_None v = true ↔ v ≠ VNone.
Proof. by destruct v. Qed.


(** ** Identifier normalisation *)

Example format_memo_id_qualified :
  format_memo_id (VStr "memos/42") = inr (VStr "42").
Proof. reflexivity. Qed.

Example format_memo_id_nested :
  format_memo_id (VStr "memos/a/b") = inr (VStr "b").
Proof. reflexivity. Qed.

Example format_memo_id_not_str :
  format_memo_id (VInt 42)
  = inl (AttributeError "'int' object has no attribute 'startswith'").
Proof. reflexivity. Qed.

Lemma format_memo_id_str s :
  format_memo_id (VStr s)
  = inr (VStr (if String.prefix "memos/" s
               then last_piece (split "/"%char s) else s)).
Proof. unfold format_memo_id. simpl. by destruct (String.prefix _ s). Qed.

Lemma format_attachment_id_str s :
  format_attachment_id (VStr s)
  = inr (VStr (if String.prefix "attachments/" s
               then last_piece (split "/"%char s) else s)).
Proof. unfold format_attachment_id. simpl. by destruct (String.prefix _ s). Qed.

Lemma format_memo_id_error v e :
  format_memo_id v = inl e → e = AttributeError (no_attribute v "startswith").
Proof.
  unfold format_memo_id. destruct v; simpl; try congruence.
  by destruct (String.prefix _ _).
Qed.

Lemma format_attachment_id_error v e :
  format_attachment_id v = inl e →
  e = AttributeError (no_attribute v "startswith").
Proof.
  unfold format_attachment_id. destruct v; simpl; try congruence.
  by destruct (String.prefix _ _).
Qed.

(** C8. Identifier normalisation never fails on a string and is idempotent:
    ["memos/42"] becomes ["42"], the bare ["42"] stays ["42"], a string that
    does not start with the resource-type prefix is returned unchanged, and
    normalising a normalised identifier changes nothing.  The same holds for
    the attachment identifiers normalised in line by the dispatcher. *)
Theorem format_memo_id_idempotent :
  format_memo_id (VStr "memos/42") = inr (VStr "42")
  ∧ format_memo_id (VStr "42") = inr (VStr "42")
  ∧ (∀ s, ∃ s', format_memo_id (VStr s) = inr (VStr s'))
  ∧ (∀ s, String.prefix "memos/" s = false →
          format_memo_id (VStr s) = inr (VStr s))
  ∧ (∀ s v, format_memo_id (VStr s) = inr v → format_memo_id v = inr v)
  ∧ (∀ s, ∃ s', format_attachment_id (VStr s) = inr (VStr s'))
  ∧ (∀ s, String.prefix "attachments/" s = false →
          format_attachment_id (VStr s) = inr (VStr s))
  ∧ (∀ s v, format_attachment_id (VStr s) = inr v →
            format_attachment_id v = inr v).
Proof.
  repeat split.
  - intros s. rewrite format_memo_id_str. eauto.
  - intros s Hs. by rewrite format_memo_id_str, Hs.
  - intros s v. rewrite format_memo_id_str. intros [= <-].
    rewrite format_memo_id_str.
    destruct (String.prefix "memos/" s) eqn:Hs; [|by rewrite Hs].
    by rewrite (no_sep_not_prefixed "/"%char "memos/" _ eq_refl
                  (last_piece_no_sep _ s)).
  - intros s. rewrite format_attachment_id_str. eauto.
  - intros s Hs. by rewrite format_attachment_id_str, Hs.
  - intros s v. rewrite format_attachment_id_str. intros [= <-].
    rewrite format_attachment_id_str.
    destruct (String.prefix "attachments/" s) eqn:Hs; [|by rewrite Hs].
    by rewrite (no_sep_not_prefixed "/"%char "attachments/" _ eq_refl
                  (last_piece_no_sep _ s)).
Qed.

(** ** What a computation puts on the wire *)

Section Emits.

Context (Q : request → Prop).

Lemma emits_ret {A} (a : A) : emits Q (mret a).
Proof. intros tr. exists []. by rewrite app_nil_r. Qed.

Lemma emits_raise {A} e : emits Q (@raise A e).
Proof. intros tr. exists []. by rewrite app_nil_r. Qed.

Lemma emits_lift {A} (r : exception + A) : emits Q (lift r).
Proof. intros tr. exists []. by rewrite app_nil_r. Qed.

Lemma emits_bind {A B} (m : IO A) (k : A → IO B) :
  emits Q m → (∀ a, emits Q (k a)) → emits Q (m ≫= k).
Proof.
  intros Hm Hk tr. unfold mbind, IO_bind, io_bind.
  destruct (Hm tr) as (reqs & Htr & Hreqs).
  destruct (m tr) as [[e|a] tr']; simpl in *; subst tr'; [by eauto|].
  destruct (Hk a (tr ++ reqs)%list) as (reqs' & -> & Hreqs').
  exists (reqs ++ reqs')%list. rewrite app_assoc. split; [done|].
  by apply Forall_app.
Qed.

Lemma emits_try {A} (body : IO A) (handler : exception → IO A) :
  emits Q body → (∀ e, emits Q (handler e)) → emits Q (try_except body handler).
Proof.
  intros Hm Hk tr. unfold try_except.
  destruct (Hm tr) as (reqs & Htr & Hreqs).
  destruct (body tr) as [[e|a] tr']; simpl in *; subst tr'; [|by eauto].
  destruct (Hk e (tr ++ reqs)%list) as (reqs' & -> & Hreqs').
  exists (reqs ++ reqs')%list. rewrite app_assoc. split; [done|].
  by apply Forall_app.
Qed.

Lemma emits_if {A} (c : bool) (m1 m2 : IO A) :
  emits Q m1 → emits Q m2 → emits Q (if c then m1 else m2).
Proof. by destruct c. Qed.

Lemma emits_send rt req : Q req → emits Q (send rt req).
Proof. intros Hreq tr. exists [req]. split; [done|]. by repeat constructor. Qed.

Lemma emits_raise_for_status rt response : emits Q (raise_for_status rt response).
Proof.
  unfold raise_for_status. apply emits_if; [apply emits_ret|apply emits_raise].
Qed.

End Emits.

(** Steps through a computation whose requests all satisfy the predicate. *)
Ltac emits_step :=
  first
    [ apply emits_ret | apply emits_raise | apply emits_lift
    | apply emits_raise_for_status
    | apply emits_send
    | apply emits_bind; [|intros ?]
    | apply emits_try; [|intros ?]
    | apply emits_if ].

(** ** Headers *)

Lemma call_tool_headers rt name arguments :
  emits (sent_with (get_headers rt)) (call_tool rt name arguments).
Proof.
  unfold call_tool.
  repeat (apply emits_if);
    unfold call_create_memo, call_list_memos, call_get_memo, call_update_memo,
      call_delete_memo, call_list_memo_attachments, call_set_memo_attachments,
      call_create_attachment, call_get_attachment, call_list_attachments,
      call_update_attachment, call_delete_attachment,
      create_memo, list_memos, get_memo, update_memo, delete_memo,
      list_memo_attachments, set_memo_attachments, create_attachment,
      get_attachment, list_attachments, update_attachment, delete_attachment,
      client_post, client_get, client_patch, client_delete;
    repeat emits_step; done.
Qed.

Lemma handle_call_tool_headers rt name arguments :
  emits (sent_with (get_headers rt)) (handle_call_tool rt name arguments).
Proof.
  unfold handle_call_tool. apply emits_try; [apply call_tool_headers|].
  intros e. unfold error_response. destruct e; apply emits_ret.
Qed.

Lemma handle_read_resource_headers rt uri :
  emits (sent_with (get_headers rt)) (handle_read_resource rt uri).
Proof.
  unfold handle_read_resource, list_memos, client_get.
  repeat emits_step; done.
Qed.

(** C9. Without an API key (the variable unset, or set to the empty string)
    the header set is exactly [Content-Type: application/json] and has no
    [Authorization] entry; with a key, [Authorization] is ["Bearer "] followed
    by the key and [Content-Type] is still there; and every request of a tool
    call or a resource read is sent with this header set. *)
Theorem get_headers_authorization (rt : runtime) :
  (environ rt !! "MEMOS_API_KEY" = None → MEMOS_API_KEY rt = "")
  ∧ (MEMOS_API_KEY rt = "" →
       get_headers rt = {[ "Content-Type" := "application/json" ]}
       ∧ get_headers rt !! "Authorization" = None)
  ∧ (MEMOS_API_KEY rt ≠ "" →
       get_headers rt !! "Authorization" = Some ("Bearer " +:+ MEMOS_API_KEY rt)
       ∧ get_headers rt !! "Content-Type" = Some "application/json")
  ∧ (∀ name arguments,
       Forall (sent_with (get_headers rt))
         (run (handle_call_tool rt name arguments)).2)
  ∧ (∀ uri,
       Forall (sent_with (get_headers rt))
         (run (handle_read_resource rt uri)).2).
Proof.
  split; [|split; [|split; [|split]]].
  - unfold MEMOS_API_KEY, get. by intros ->.
  - unfold get_headers. intros ->. simpl. by split.
  - unfold get_headers. intros Hkey.
    destruct (String.eqb_spec (MEMOS_API_KEY rt) ""); [done|]. simpl.
    split; [apply lookup_insert_eq|].
    rewrite lookup_insert_ne by done. apply lookup_singleton_eq.
  - intros name arguments.
    destruct (handle_call_tool_headers rt name arguments []) as (reqs & Heq & H).
    unfold run. by rewrite Heq.
  - intros uri.
    destruct (handle_read_resource_headers rt uri []) as (reqs & Heq & H).
    unfold run. by rewrite Heq.
Qed.

(** ** Dictionaries built field by field *)

Lemma lookup_set_if cond key v (d : gmap string value) k :
  set_if cond key v d !! k
  = if cond && String.eqb key k then Some v else d !! k.
Proof.
  unfold set_if. destruct cond; simpl; [|done].
  destruct (String.eqb_spec key k) as [->|Hne].
  - apply lookup_insert_eq.
  - by apply lookup_insert_ne.
Qed.

(** Computes the comparisons of two literal keys. *)
Ltac eval_keys :=
  repeat match goal with
    | |- context [String.eqb ?a ?b] =>
        let r := eval vm_compute in (String.eqb a b) in
        match r with
        | true => change (String.eqb a b) with true
        | false => change (String.eqb a b) with false
        end
    end;
  rewrite ?andb_true_r, ?andb_false_r; cbn [andb].

(** Decides every comparison of a literal key with [k], replacing [k] by the
    key where they are equal. *)
Ltac split_keys k :=
  repeat match goal with
    | |- context [String.eqb ?key k] =>
        destruct (String.eqb_spec key k) as [<-|?]; eval_keys
    end.

(** Turns membership in a literal list into one case per element. *)
Ltac each_field H :=
  repeat (apply elem_of_cons in H as [H|H]; [injection H as -> ->|]);
  try (by apply elem_of_nil in H).

Ltac each_elem H :=
  repeat (apply elem_of_cons in H as [->|H]);
  try (by apply elem_of_nil in H).

(** A dictionary filled by [set_if (is_not_None v)] steps holds a key exactly
    when the value given for it is not [None]. *)
Ltac fields_spec k :=
  rewrite !lookup_set_if; rewrite lookup_empty; split;
  [ split_keys k; try done;
    match goal with
    | |- context [is_not_None ?v] => destruct (is_not_None v) eqn:?; [|done]
    end;
    intros [= <-]; eexists;
    (split; [|split; [by apply is_not_None_true|done]]); set_solver
  | let v := fresh "v" in
    let Hin := fresh "Hin" in
    let Hv := fresh "Hv" in
    intros (v & Hin & Hv & ->); apply is_not_None_true in Hv;
    each_field Hin; rewrite Hv; eval_keys; done ].

(** ** One request per builder *)

(** Unfolds the monad down to functions on traces. *)
Ltac io_unfold :=
  unfold mbind, mret, IO_bind, IO_ret, io_bind, io_ret, lift, raise,
    try_except, raise_for_status, client_post, client_get, client_patch,
    client_delete, send, run in *.

Lemma send_json_run rt req tr :
  (response ← send rt req;
   _ ← raise_for_status rt response;
   lift (response_json rt response)) tr
  = (reply_json rt req, (tr ++ [req])%list).
Proof.
  io_unfold. unfold reply_json, reply_checked.
  destruct (http_send rt req) as [e|response]; [done|].
  by destruct (is_success response).
Qed.

Lemma send_unit_run rt req tr :
  (response ← send rt req; raise_for_status rt response) tr
  = (reply_unit rt req, (tr ++ [req])%list).
Proof.
  io_unfold. unfold reply_unit, reply_checked.
  destruct (http_send rt req) as [e|response]; [done|].
  by destruct (is_success response).
Qed.

Lemma create_memo_run rt content visibility state pinned name create_time
    update_time display_time attachments relations property location tr :
  let req :=
    mkRequest POST (api_url rt "api/v1/memos") (get_headers rt) None
      (Some (create_memo_payload rt content visibility state pinned name
               create_time update_time display_time attachments relations
               property location)) 30 in
  create_memo rt content visibility state pinned name create_time update_time
    display_time attachments relations property location tr
  = (reply_json rt req, (tr ++ [req])%list).
Proof. apply send_json_run. Qed.

Lemma list_memos_run rt page_size page_token state order_by filter
    show_deleted tr :
  let req :=
    mkRequest GET (api_url rt "api/v1/memos") (get_headers rt)
      (Some (list_memos_params rt page_size page_token state order_by filter
               show_deleted)) None 30 in
  list_memos rt page_size page_token state order_by filter show_deleted tr
  = (reply_json rt req, (tr ++ [req])%list).
Proof. apply send_json_run. Qed.

Lemma get_memo_run rt memo_id tr :
  let req :=
    mkRequest GET (api_url rt ("api/v1/memos/" +:+ str rt memo_id))
      (get_headers rt) None None 30 in
  get_memo rt memo_id tr = (reply_json rt req, (tr ++ [req])%list).
Proof. apply send_json_run. Qed.

Lemma update_memo_run rt memo_id content visibility state pinned create_time
    update_time display_time attachments relations property location tr :
  let req :=
    mkRequest PATCH (api_url rt ("api/v1/memos/" +:+ str rt memo_id))
      (get_headers rt) None
      (Some (update_memo_payload rt content visibility state pinned
               create_time update_time display_time attachments relations
               property location)) 30 in
  update_memo rt memo_id content visibility state pinned create_time
    update_time display_time attachments relations property location tr
  = (reply_json rt req, (tr ++ [req])%list).
Proof. apply send_json_run. Qed.

Lemma delete_memo_run rt memo_id tr :
  let req :=
    mkRequest DELETE (api_url rt ("api/v1/memos/" +:+ str rt memo_id))
      (get_headers rt) None None 30 in
  delete_memo rt memo_id tr = (reply_unit rt req, (tr ++ [req])%list).
Proof. apply send_unit_run. Qed.

Lemma list_memo_attachments_run rt memo_id page_size page_token tr :
  let req :=
    mkRequest GET
      (api_url rt ("api/v1/memos/" +:+ str rt memo_id +:+ "/attachments"))
      (get_headers rt)
      (Some (list_memo_attachments_params page_size page_token)) None 30 in
  list_memo_attachments rt memo_id page_size page_token tr
  = (reply_json rt req, (tr ++ [req])%list).
Proof. apply send_json_run. Qed.

Lemma set_memo_attachments_run rt memo_id attachments tr :
  let req :=
    mkRequest PATCH
      (api_url rt ("api/v1/memos/" +:+ str rt memo_id +:+ "/attachments"))
      (get_headers rt) None
      (Some (set_memo_attachments_payload rt memo_id attachments)) 30 in
  set_memo_attachments rt memo_id attachments tr
  = (reply_unit rt req, (tr ++ [req])%list).
Proof. apply send_unit_run. Qed.

Lemma create_attachment_run rt filename type attachment_id content
    external_link memo tr :
  let req :=
    mkRequest POST
      (if is_not_None attachment_id
       then api_url rt "api/v1/attachments" +:+ "?attachmentId=" +:+
            str rt attachment_id
       else api_url rt "api/v1/attachments")
      (get_headers rt) None
      (Some (create_attachment_payload filename type content external_link
               memo)) 30 in
  create_attachment rt filename type attachment_id content external_link memo tr
  = (reply_json rt req, (tr ++ [req])%list).
Proof. apply send_json_run. Qed.

Lemma get_attachment_run rt attachment_id tr :
  let req :=
    mkRequest GET (api_url rt ("api/v1/attachments/" +:+ str rt attachment_id))
      (get_headers rt) None None 30 in
  get_attachment rt attachment_id tr = (reply_json rt req, (tr ++ [req])%list).
Proof. apply send_json_run. Qed.

Lemma list_attachments_run rt page_size page_token filter order_by tr :
  let req :=
    mkRequest GET (api_url rt "api/v1/attachments") (get_headers rt)
      (Some (list_attachments_params page_size page_token filter order_by))
      None 30 in
  list_attachments rt page_size page_token filter order_by tr
  = (reply_json rt req, (tr ++ [req])%list).
Proof. apply send_json_run. Qed.

Lemma update_attachment_run rt attachment_id update_mask filename type content
    external_link memo tr :
  let req :=
    mkRequest PATCH
      (api_url rt ("api/v1/attachments/" +:+ str rt attachment_id) +:+
       "?updateMask=" +:+ str rt update_mask)
      (get_headers rt) None
      (Some (update_attachment_payload filename type content external_link
               memo)) 30 in
  update_attachment rt attachment_id update_mask filename type content
    external_link memo tr
  = (reply_json rt req, (tr ++ [req])%list).
Proof. apply send_json_run. Qed.

Lemma delete_attachment_run rt attachment_id tr :
  let req :=
    mkRequest DELETE
      (api_url rt ("api/v1/attachments/" +:+ str rt attachment_id))
      (get_headers rt) None None 30 in
  delete_attachment rt attachment_id tr = (reply_unit rt req, (tr ++ [req])%list).
Proof. apply send_unit_run. Qed.

Lemma sends_body_intro {A} (m : IO A) (P : gmap string value → Prop)
    (r : exception + A) (req : request) (body : gmap string value) :
  (∀ tr, m tr = (r, (tr ++ [req])%list)) → json req = Some body → P body →
  sends_body m P.
Proof. intros Hrun Hjson HP tr. exists req, body. by rewrite Hrun. Qed.

Lemma sends_params_intro {A} (m : IO A) (P : gmap string value → Prop)
    (r : exception + A) (req : request) (p : gmap string value) :
  (∀ tr, m tr = (r, (tr ++ [req])%list)) → params req = Some p → P p →
  sends_params m P.
Proof. intros Hrun Hparams HP tr. exists req, p. by rewrite Hrun. Qed.

(** ** Enum prefixes *)

Example create_memo_call_public :
  (run (handle_call_tool sample_runtime "create_memo"
          {[ "content" := VStr "note"; "visibility" := VStr "PUBLIC";
             "state" := VStr "ARCHIVED" ]})).2
  = [mkRequest POST "http://localhost:5230/api/v1/memos"
       {[ "Content-Type" := "application/json" ]} None
       (Some {[ "content" := VStr "note";
                "visibility" := VStr "VISIBILITY_PUBLIC";
                "state" := VStr "STATE_ARCHIVED" ]}) 30].
Proof. vm_compute. reflexivity. Qed.

(** C7. A visibility or state given as a string is transmitted with its fixed
    prefix: the body sent by [create_memo] and by [update_memo] holds
    ["VISIBILITY_" ++ V] and ["STATE_" ++ S], and the query parameters sent by
    [list_memos] hold ["STATE_" ++ S] under [state]; so ["PUBLIC"] is sent as
    ["VISIBILITY_PUBLIC"]. *)
Theorem enum_prefix_transform (rt : runtime) :
  (∀ V S content pinned name create_time update_time display_time
     attachments relations property location,
     sends_body
       (create_memo rt content (VStr V) (VStr S) pinned name create_time
          update_time display_time attachments relations property location)
       (λ body,
          body !! "visibility" = Some (VStr ("VISIBILITY_" +:+ V))
          ∧ body !! "state" = Some (VStr ("STATE_" +:+ S))))
  ∧ (∀ V memo_id content state pinned create_time update_time display_time
       attachments relations property location,
       sends_body
         (update_memo rt memo_id content (VStr V) state pinned create_time
            update_time display_time attachments relations property location)
         (λ body, body !! "visibility" = Some (VStr ("VISIBILITY_" +:+ V))))
  ∧ (∀ S memo_id content visibility pinned create_time update_time
       display_time attachments relations property location,
       sends_body
         (update_memo rt memo_id content visibility (VStr S) pinned create_time
            update_time display_time attachments relations property location)
         (λ body, body !! "state" = Some (VStr ("STATE_" +:+ S))))
  ∧ (∀ S page_size page_token order_by filter show_deleted,
       sends_params
         (list_memos rt page_size page_token (VStr S) order_by filter
            show_deleted)
         (λ p, p !! "state" = Some (VStr ("STATE_" +:+ S))))
  ∧ (∀ content state pinned name create_time update_time display_time
       attachments relations property location,
       sends_body
         (create_memo rt content (VStr "PUBLIC") state pinned name create_time
            update_time display_time attachments relations property location)
         (λ body, body !! "visibility" = Some (VStr "VISIBILITY_PUBLIC"))).
Proof.
  split; [|split; [|split; [|split]]]; intros.
  - eapply sends_body_intro; [apply create_memo_run|done|].
    unfold create_memo_payload. rewrite !lookup_set_if. eval_keys. by split.
  - eapply sends_body_intro; [apply update_memo_run|done|].
    unfold update_memo_payload. rewrite !lookup_set_if. by eval_keys.
  - eapply sends_body_intro; [apply update_memo_run|done|].
    unfold update_memo_payload. rewrite !lookup_set_if. by eval_keys.
  - eapply sends_params_intro; [apply list_memos_run|done|].
    unfold list_memos_params. rewrite !lookup_set_if. by eval_keys.
  - eapply sends_body_intro; [apply create_memo_run|done|].
    unfold create_memo_payload. rewrite !lookup_set_if. by eval_keys.
Qed.

(** ** Query parameters of the list operations *)

Lemma list_memos_params_spec rt page_size page_token state order_by filter
    show_deleted k w :
  list_memos_params rt page_size page_token state order_by filter show_deleted
  !! k = Some w
  ↔ ∃ v, (k, v) ∈ list_memos_fields page_size page_token state order_by filter
                     show_deleted
         ∧ v ≠ VNone ∧ w = query_value rt k v.
Proof. unfold list_memos_params, list_memos_fields. fields_spec k. Qed.

Lemma list_memo_attachments_params_spec rt page_size page_token k w :
  list_memo_attachments_params page_size page_token !! k = Some w
  ↔ ∃ v, (k, v) ∈ list_memo_attachments_fields page_size page_token
         ∧ v ≠ VNone ∧ w = query_value rt k v.
Proof.
  unfold list_memo_attachments_params, list_memo_attachments_fields.
  fields_spec k.
Qed.

Lemma list_attachments_params_spec rt page_size page_token filter order_by k w :
  list_attachments_params page_size page_token filter order_by !! k = Some w
  ↔ ∃ v, (k, v) ∈ list_attachments_fields page_size page_token filter order_by
         ∧ v ≠ VNone ∧ w = query_value rt k v.
Proof. unfold list_attachments_params, list_attachments_fields. fields_spec k. Qed.

Lemma query_value_not_None rt k v : v ≠ VNone → query_value rt k v ≠ VNone.
Proof.
  unfold query_value. intros Hv.
  by destruct (String.eqb k "state"), (String.eqb k "showDeleted").
Qed.

Lemma call_list_memos_omitted rt arguments k :
  get_opt arguments k = VNone →
  emits (without_param k) (call_list_memos rt arguments).
Proof.
  intros Hk. unfold call_list_memos, list_memos, client_get.
  repeat emits_step. intros p [= <-].
  destruct (list_memos_params _ _ _ _ _ _ _ !! k) as [w|] eqn:Hw; [|done].
  apply list_memos_params_spec in Hw as (v & Hin & Hv & _).
  unfold list_memos_fields in Hin. each_field Hin; congruence.
Qed.

Lemma call_list_attachments_omitted rt arguments k :
  get_opt arguments k = VNone →
  emits (without_param k) (call_list_attachments rt arguments).
Proof.
  intros Hk. unfold call_list_attachments, list_attachments, client_get.
  repeat emits_step. intros p [= <-].
  destruct (list_attachments_params _ _ _ _ !! k) as [w|] eqn:Hw; [|done].
  apply (list_attachments_params_spec rt) in Hw as (v & Hin & Hv & _).
  unfold list_attachments_fields in Hin. each_field Hin; congruence.
Qed.

Lemma call_list_memo_attachments_omitted rt arguments k :
  get_opt arguments k = VNone →
  emits (without_param k) (call_list_memo_attachments rt arguments).
Proof.
  intros Hk. unfold call_list_memo_attachments, list_memo_attachments, client_get.
  repeat emits_step. intros p [= <-].
  destruct (list_memo_attachments_params _ _ !! k) as [w|] eqn:Hw; [|done].
  apply (list_memo_attachments_params_spec rt) in Hw as (v & Hin & Hv & _).
  unfold list_memo_attachments_fields in Hin. each_field Hin; congruence.
Qed.

Lemma error_response_emits Q e : emits Q (error_response e).
Proof. unfold error_response. destruct e; apply emits_ret. Qed.

Example list_memos_call_no_arguments :
  (run (handle_call_tool sample_runtime "list_memos" ∅)).2
  = [mkRequest GET "http://localhost:5230/api/v1/memos"
       {[ "Content-Type" := "application/json" ]} (Some ∅) None 30].
Proof. vm_compute. reflexivity. Qed.

Example list_memos_call_page :
  (run (handle_call_tool sample_runtime "list_memos"
          {[ "pageSize" := VInt 10; "showDeleted" := VBool false;
             "pageToken" := VNone ]})).2
  = [mkRequest GET "http://localhost:5230/api/v1/memos"
       {[ "Content-Type" := "application/json" ]}
       (Some {[ "pageSize" := VInt 10; "showDeleted" := VStr "false" ]})
       None 30].
Proof. vm_compute. reflexivity. Qed.

(** C6. In the three list operations an optional parameter that is omitted
    ([None]) never reaches the query parameters: among the parameters that are
    sent a key is present exactly when a value other than [None] was given
    for it, no parameter is ever sent as [None], and a tool call whose
    arguments lack a key (or give [null] for it) issues no request with that
    key among its query parameters. *)
Theorem list_omitted_parameter_absent (rt : runtime) :
  (∀ page_size page_token state order_by filter show_deleted,
     sends_params
       (list_memos rt page_size page_token state order_by filter show_deleted)
       (λ p, ∀ k,
          (is_Some (p !! k)
           ↔ ∃ v, (k, v) ∈ list_memos_fields page_size page_token state
                              order_by filter show_deleted ∧ v ≠ VNone)
          ∧ p !! k ≠ Some VNone))
  ∧ (∀ page_size page_token filter order_by,
       sends_params
         (list_attachments rt page_size page_token filter order_by)
         (λ p, ∀ k,
            (is_Some (p !! k)
             ↔ ∃ v, (k, v) ∈ list_attachments_fields page_size page_token
                                filter order_by ∧ v ≠ VNone)
            ∧ p !! k ≠ Some VNone))
  ∧ (∀ memo_id page_size page_token,
       sends_params
         (list_memo_attachments rt memo_id page_size page_token)
         (λ p, ∀ k,
            (is_Some (p !! k)
             ↔ ∃ v, (k, v) ∈ list_memo_attachments_fields page_size page_token
                    ∧ v ≠ VNone)
            ∧ p !! k ≠ Some VNone))
  ∧ (∀ name arguments k,
       name ∈ ["list_memos"; "list_attachments"; "list_memo_attachments"] →
       get_opt arguments k = VNone →
       Forall (without_param k) (run (handle_call_tool rt name arguments)).2).
Proof.
  split; [|split; [|split]].
  - intros *. eapply sends_params_intro; [apply list_memos_run|done|].
    intros k. split; [split|].
    + intros [w Hw].
      apply list_memos_params_spec in Hw as (v & Hin & Hv & _). eauto.
    + intros (v & Hin & Hv). eexists.
      apply list_memos_params_spec. eauto.
    + intros Hw. apply list_memos_params_spec in Hw as (v & _ & Hv & Ew).
      by eapply query_value_not_None.
  - intros *. eapply sends_params_intro; [apply list_attachments_run|done|].
    intros k. split; [split|].
    + intros [w Hw].
      apply (list_attachments_params_spec rt) in Hw as (v & Hin & Hv & _).
      eauto.
    + intros (v & Hin & Hv). eexists.
      apply (list_attachments_params_spec rt). eauto.
    + intros Hw.
      apply (list_attachments_params_spec rt) in Hw as (v & _ & Hv & Ew).
      by eapply query_value_not_None.
  - intros *.
    eapply sends_params_intro; [apply list_memo_attachments_run|done|].
    intros k. split; [split|].
    + intros [w Hw].
      apply (list_memo_attachments_params_spec rt) in Hw as (v & Hin & Hv & _).
      eauto.
    + intros (v & Hin & Hv). eexists.
      apply (list_memo_attachments_params_spec rt). eauto.
    + intros Hw.
      apply (list_memo_attachments_params_spec rt) in Hw as (v & _ & Hv & Ew).
      by eapply query_value_not_None.
  - intros name arguments k Hname Hk.
    assert (emits (without_param k) (handle_call_tool rt name arguments)) as He.
    { unfold handle_call_tool.
      apply emits_try; [|intros e; apply error_response_emits].
      each_elem Hname; unfold call_tool; simpl.
      - by apply call_list_memos_omitted.
      - by apply call_list_attachments_omitted.
      - by apply call_list_memo_attachments_omitted. }
    destruct (He []) as (reqs & Heq & Hreqs). unfold run. by rewrite Heq.
Qed.

(** ** Bodies of the update operations *)

Lemma body_value_not_None rt k v : v ≠ VNone → body_value rt k v ≠ VNone.
Proof.
  unfold body_value. intros Hv.
  by destruct (String.eqb k "visibility"), (String.eqb k "state").
Qed.

Lemma update_memo_payload_spec rt content visibility state pinned create_time
    update_time display_time attachments relations property location k w :
  update_memo_payload rt content visibility state pinned create_time
    update_time display_time attachments relations property location
  !! k = Some w
  ↔ ∃ v, (k, v) ∈ update_memo_fields content visibility state pinned
                     create_time update_time display_time attachments
                     relations property location
         ∧ v ≠ VNone ∧ w = body_value rt k v.
Proof. unfold update_memo_payload, update_memo_fields. fields_spec k. Qed.

Lemma update_attachment_payload_spec rt filename type content external_link
    memo k w :
  update_attachment_payload filename type content external_link memo
  !! k = Some w
  ↔ ∃ v, (k, v) ∈ update_attachment_fields filename type content
                     external_link memo
         ∧ v ≠ VNone ∧ w = body_value rt k v.
Proof.
  unfold update_attachment_payload, update_attachment_fields. fields_spec k.
Qed.

Example update_memo_content_only rt c :
  update_memo_payload rt (VStr c) VNone VNone VNone VNone VNone VNone VNone
    VNone VNone VNone
  = {[ "content" := VStr c ]}.
Proof. reflexivity. Qed.

Example update_memo_unpin rt :
  update_memo_payload rt VNone VNone VNone (VBool false) VNone VNone VNone
    VNone VNone VNone VNone
  = {[ "pinned" := VBool false ]}.
Proof. reflexivity. Qed.

Example update_memo_call_content_only :
  (run (handle_call_tool sample_runtime "update_memo"
          {[ "memoId" := VStr "memos/42"; "content" := VStr "new text" ]})).2
  = [mkRequest PATCH "http://localhost:5230/api/v1/memos/42"
       {[ "Content-Type" := "application/json" ]} None
       (Some {[ "content" := VStr "new text" ]}) 30].
Proof. vm_compute. reflexivity. Qed.

Example update_attachment_call_filename_only :
  (run (handle_call_tool sample_runtime "update_attachment"
          {[ "attachmentId" := VStr "attachments/9";
             "updateMask" := VStr "filename";
             "filename" := VStr "b.png" ]})).2
  = [mkRequest PATCH
       "http://localhost:5230/api/v1/attachments/9?updateMask=filename"
       {[ "Content-Type" := "application/json" ]} None
       (Some {[ "filename" := VStr "b.png" ]}) 30].
Proof. vm_compute. reflexivity. Qed.

(** C2. The JSON body sent by [update_memo] and by [update_attachment] holds
    exactly the optional fields the caller supplied: a key is in the body if
    and only if a value other than [None] was given for the field of that
    key, and no key is ever present with the value [None].  Updating a memo
    with only [content] sends the one-field body [{"content": ...}]. *)
Theorem update_payload_exactly_supplied (rt : runtime) :
  (∀ memo_id content visibility state pinned create_time update_time
     display_time attachments relations property location,
     sends_body
       (update_memo rt memo_id content visibility state pinned create_time
          update_time display_time attachments relations property location)
       (λ body, ∀ k,
          (is_Some (body !! k)
           ↔ ∃ v, (k, v) ∈ update_memo_fields content visibility state pinned
                              create_time update_time display_time
                              attachments relations property location
                  ∧ v ≠ VNone)
          ∧ body !! k ≠ Some VNone))
  ∧ (∀ attachment_id update_mask filename type content external_link memo,
       sends_body
         (update_attachment rt attachment_id update_mask filename type content
            external_link memo)
         (λ body, ∀ k,
            (is_Some (body !! k)
             ↔ ∃ v, (k, v) ∈ update_attachment_fields filename type content
                                external_link memo
                    ∧ v ≠ VNone)
            ∧ body !! k ≠ Some VNone))
  ∧ (∀ memo_id c,
       sends_body
         (update_memo rt memo_id (VStr c) VNone VNone VNone VNone VNone VNone
            VNone VNone VNone VNone)
         (λ body, body = {[ "content" := VStr c ]})).
Proof.
  split; [|split].
  - intros *. eapply sends_body_intro; [apply update_memo_run|done|].
    intros k. split; [split|].
    + intros [w Hw].
      apply update_memo_payload_spec in Hw as (v & Hin & Hv & _). eauto.
    + intros (v & Hin & Hv). eexists.
      apply update_memo_payload_spec. eauto.
    + intros Hw. apply update_memo_payload_spec in Hw as (v & _ & Hv & Ew).
      by eapply body_value_not_None.
  - intros *. eapply sends_body_intro; [apply update_attachment_run|done|].
    intros k. split; [split|].
    + intros [w Hw].
      apply (update_attachment_payload_spec rt) in Hw as (v & Hin & Hv & _).
      eauto.
    + intros (v & Hin & Hv). eexists.
      apply (update_attachment_payload_spec rt). eauto.
    + intros Hw.
      apply (update_attachment_payload_spec rt) in Hw as (v & _ & Hv & Ew).
      by eapply body_value_not_None.
  - intros *. by eapply sends_body_intro; [apply update_memo_run|done|].
Qed.

(** ** The dispatcher, branch by branch *)

Lemma error_response_run e tr :
  error_response e tr = (inr [text_content (error_text e)], tr).
Proof. by destruct e. Qed.

Lemma handle_call_tool_run rt name arguments tr :
  handle_call_tool rt name arguments tr
  = match call_tool rt name arguments tr with
    | (inl e, tr') => (inr [text_content (error_text e)], tr')
    | (inr c, tr') => (inr c, tr')
    end.
Proof.
  unfold handle_call_tool, try_except.
  destruct (call_tool rt name arguments tr) as [[e|c] tr']; [|done].
  apply error_response_run.
Qed.

Ltac unfold_branches :=
  unfold call_create_memo, call_list_memos, call_get_memo, call_update_memo,
    call_delete_memo, call_list_memo_attachments, call_set_memo_attachments,
    call_create_attachment, call_get_attachment, call_list_attachments,
    call_update_attachment, call_delete_attachment.

(** Runs a branch of the dispatcher up to the reply of the remote API: one
    goal per way through the validation and the normalisation. *)
Ltac tool_branch :=
  unfold_branches; io_unfold; cbn beta iota;
  repeat match goal with
    | |- context [if negb (truthy ?v) then _ else _] =>
        destruct (truthy v) eqn:?; cbn [negb]; cbn beta iota
    | |- context [if is_None ?v then _ else _] =>
        destruct (is_None v) eqn:?; cbn beta iota
    | |- context [match format_memo_id ?v with _ => _ end] =>
        destruct (format_memo_id v) eqn:?; cbn beta iota
    | |- context [match format_attachment_id ?v with _ => _ end] =>
        destruct (format_attachment_id v) eqn:?; cbn beta iota
    end;
  rewrite ?create_memo_run, ?list_memos_run, ?get_memo_run, ?update_memo_run,
    ?delete_memo_run, ?list_memo_attachments_run, ?set_memo_attachments_run,
    ?create_attachment_run, ?get_attachment_run, ?list_attachments_run,
    ?update_attachment_run, ?delete_attachment_run;
  cbn beta iota zeta; cbn [app].

(** One goal per tool name, and one for the names that are no tool. *)
Ltac each_tool name :=
  unfold call_tool;
  repeat match goal with
    | |- context [String.eqb name ?k] => destruct (String.eqb name k) eqn:?
    end.

Ltac case_reply :=
  match goal with
  | |- context [reply_json ?rt ?r] => destruct (reply_json rt r) eqn:?
  | |- context [reply_unit ?rt ?r] => destruct (reply_unit rt r) eqn:?
  end.

Ltac case_len :=
  match goal with
  | |- context [len ?v] => destruct (len v) eqn:?
  end.

(** A tool call sends nothing, or one request; a request that fails makes the
    body of the [try] block raise the failure. *)
Lemma call_tool_outcome rt name arguments :
  (run (call_tool rt name arguments)).2 = []
  ∨ ∃ req,
      (run (call_tool rt name arguments)).2 = [req]
      ∧ ∀ e, reply_checked rt req = inl e →
             (run (call_tool rt name arguments)).1 = inl e.
Proof.
  unfold run. each_tool name; tool_branch; try (by left).
  all: right; eexists; split; [by case_reply; try case_len|].
  all: intros e He; unfold reply_json, reply_unit; by rewrite He.
Qed.

Lemma handle_call_tool_outcome rt name arguments :
  (run (handle_call_tool rt name arguments)).2 = []
  ∨ ∃ req,
      (run (handle_call_tool rt name arguments)).2 = [req]
      ∧ ∀ e, reply_checked rt req = inl e →
             (run (handle_call_tool rt name arguments)).1
             = inr [text_content (error_text e)].
Proof.
  unfold run. rewrite handle_call_tool_run.
  destruct (call_tool_outcome rt name arguments) as [Hnil|(req & Hreq & He)];
    unfold run in *.
  - left. by destruct (call_tool rt name arguments []) as [[e|c] tr].
  - right. exists req.
    destruct (call_tool rt name arguments []) as [[e|c] tr]; simpl in *.
    + split; [done|]. intros e' He'. by apply He in He' as [= ->].
    + split; [done|]. intros e' He'. by apply He in He'.
Qed.

(** ** Creating a memo with the defaults *)

(** C3. A [create_memo] call given only [content = "hello"] issues one POST
    whose body is exactly the three fields [content], [visibility] and
    [state], the last two carrying the defaults with their prefixes; the body
    has no [pinned] key. *)
Theorem create_memo_defaults (rt : runtime) :
  let body : gmap string value :=
    {[ "content" := VStr "hello";
       "visibility" := VStr "VISIBILITY_PRIVATE";
       "state" := VStr "STATE_NORMAL" ]} in
  (run (handle_call_tool rt "create_memo" {[ "content" := VStr "hello" ]})).2
  = [mkRequest POST (api_url rt "api/v1/memos") (get_headers rt) None
       (Some body) 30]
  ∧ body !! "pinned" = None
  ∧ dom body = {[ "content"; "visibility"; "state" ]}
  ∧ create_memo_payload rt (VStr "hello") (VStr "PRIVATE") (VStr "NORMAL")
      (VBool false) VNone VNone VNone VNone VNone VNone VNone VNone
    = body.
Proof.
  intros body. split; [|by repeat split].
  unfold run. rewrite handle_call_tool_run.
  unfold call_tool. eval_keys. unfold call_create_memo.
  change (get _ "content" _) with (VStr "hello").
  cbn [truthy negb String.eqb Ascii.eqb Bool.eqb].
  io_unfold. rewrite create_memo_run. simpl app.
  by destruct (reply_json rt _).
Qed.

(** ** Setting an empty list of attachments *)

(** C10. A [set_memo_attachments] call with a non-empty string [memoId] and
    the empty list for [attachments] passes validation: exactly one PATCH is
    issued, its body is [{"name": "memos/<id>", "attachments": []}] with [<id>]
    the normalised identifier, and when the remote API answers with a success
    status the response text is ["Successfully set 0 attachment(s) for memo: "]
    followed by the [memoId] as the caller wrote it.  Without the
    [attachments] key the call is refused and nothing is sent. *)
Theorem set_memo_attachments_empty_list
    (rt : runtime) (arguments : gmap string value) (m : string) :
  arguments !! "memoId" = Some (VStr m) →
  m ≠ "" →
  arguments !! "attachments" = Some (VList []) →
  ∃ id,
    format_memo_id (VStr m) = inr (VStr id)
    ∧ let req :=
        mkRequest PATCH (api_url rt ("api/v1/memos/" +:+ id +:+ "/attachments"))
          (get_headers rt) None
          (Some {[ "name" := VStr ("memos/" +:+ id);
                   "attachments" := VList [] ]}) 30 in
      (run (handle_call_tool rt "set_memo_attachments" arguments)).2 = [req]
      ∧ (∀ response,
           http_send rt req = inr response → is_success response = true →
           (run (handle_call_tool rt "set_memo_attachments" arguments)).1
           = inr [text_content
                    ("Successfully set 0 attachment(s) for memo: " +:+ m)])
      ∧ run (handle_call_tool rt "set_memo_attachments"
               (delete "attachments" arguments))
        = (inr [text_content "Error: attachments is required"], []).
Proof.
  intros Hid Hm Hatt.
  eexists. split; [apply format_memo_id_str|].
  intros req. unfold run. rewrite !handle_call_tool_run.
  unfold call_tool. eval_keys.
  unfold call_set_memo_attachments, get_opt, get.
  rewrite lookup_delete_eq, lookup_delete_ne by done.
  rewrite Hid, Hatt. cbn [default from_option id].
  rewrite (truthy_str _ Hm). cbn [negb is_None].
  rewrite format_memo_id_str.
  io_unfold. rewrite set_memo_attachments_run. simpl app.
  change (mkRequest _ _ _ _ _ _) with req.
  split; [|split].
  - by destruct (reply_unit rt req).
  - intros response Hsend Hok. unfold reply_unit, reply_checked.
    by rewrite Hsend, Hok.
  - done.
Qed.

Lemma set_memo_attachments_empty_list_witness :
  let arguments : gmap string value :=
    {[ "memoId" := VStr "memos/7"; "attachments" := VList [] ]} in
  ∃ id,
    format_memo_id (VStr "memos/7") = inr (VStr id)
    ∧ let req :=
        mkRequest PATCH
          (api_url sample_runtime ("api/v1/memos/" +:+ id +:+ "/attachments"))
          (get_headers sample_runtime) None
          (Some {[ "name" := VStr ("memos/" +:+ id);
                   "attachments" := VList [] ]}) 30 in
      (run (handle_call_tool sample_runtime "set_memo_attachments" arguments)).2
      = [req]
      ∧ (∀ response,
           http_send sample_runtime req = inr response →
           is_success response = true →
           (run (handle_call_tool sample_runtime "set_memo_attachments"
                   arguments)).1
           = inr [text_content
                    ("Successfully set 0 attachment(s) for memo: " +:+
                     "memos/7")])
      ∧ run (handle_call_tool sample_runtime "set_memo_attachments"
               (delete "attachments" arguments))
        = (inr [text_content "Error: attachments is required"], []).
Proof.
  intros arguments.
  apply (set_memo_attachments_empty_list sample_runtime arguments "memos/7").
  - reflexivity.
  - discriminate.
  - reflexivity.
Defined.

Example set_memo_attachments_clears :
  run (handle_call_tool sample_runtime "set_memo_attachments"
         {[ "memoId" := VStr "memos/7"; "attachments" := VList [] ]})
  = (inr [text_content "Successfully set 0 attachment(s) for memo: memos/7"],
     [mkRequest PATCH "http://localhost:5230/api/v1/memos/7/attachments"
        {[ "Content-Type" := "application/json" ]} None
        (Some {[ "name" := VStr "memos/7"; "attachments" := VList [] ]}) 30]).
Proof. vm_compute. reflexivity. Qed.

Example delete_memo_call :
  run (handle_call_tool sample_runtime "delete_memo"
         {[ "memoId" := VStr "memos/7" ]})
  = (inr [text_content "Successfully deleted memo: memos/7"],
     [mkRequest DELETE "http://localhost:5230/api/v1/memos/7"
        {[ "Content-Type" := "application/json" ]} None None 30]).
Proof. vm_compute. reflexivity. Qed.

(** ** Failures at the dispatcher boundary *)

Lemma error_text_status m response :
  contains (pretty (status_code response))
    (error_text (HTTPStatusError m response))
  ∧ contains (text response) (error_text (HTTPStatusError m response)).
Proof.
  split.
  - apply contains_middle.
  - exists ("HTTP Error " +:+ pretty (status_code response) +:+ ": "), "".
    by rewrite append_empty_r, !append_assoc.
Qed.

Example get_attachment_not_found :
  run (handle_call_tool not_found_runtime "get_attachment"
         {[ "attachmentId" := VStr "attachments/9" ]})
  = (inr [text_content "HTTP Error 404: attachment not found"],
     [mkRequest GET "http://localhost:5230/api/v1/attachments/9"
        {[ "Content-Type" := "application/json";
           "Authorization" := "Bearer secret" ]} None None 30]).
Proof. vm_compute. reflexivity. Qed.

Example get_attachment_not_str :
  run (handle_call_tool sample_runtime "get_attachment"
         {[ "attachmentId" := VInt 9 ]})
  = (inr [text_content "Error: 'int' object has no attribute 'startswith'"],
     []).
Proof. vm_compute. reflexivity. Qed.

(** C4. The dispatcher always returns a list of content blocks: an exception
    raised in the body of its [try] block becomes one text block.  For an
    [HTTPStatusError] the text is ["HTTP Error <status>: <body>"], so it
    contains the status code and the response body; for any other exception
    it is ["Error: "] followed by the message of the exception.  Whenever the
    request of a tool call is answered with a status that is no success, the
    response is that HTTP error text; a [404] answer to [get_attachment]
    gives ["HTTP Error 404: "] followed by the body. *)
Theorem failures_become_text_responses (rt : runtime) :
  (∀ name arguments,
     ∃ content, (run (handle_call_tool rt name arguments)).1 = inr content)
  ∧ (∀ name arguments e,
       (run (call_tool rt name arguments)).1 = inl e →
       (run (handle_call_tool rt name arguments)).1
       = inr [text_content (error_text e)])
  ∧ (∀ m response,
       error_text (HTTPStatusError m response)
       = "HTTP Error " +:+ pretty (status_code response) +:+ ": " +:+
         text response
       ∧ contains (pretty (status_code response))
           (error_text (HTTPStatusError m response))
       ∧ contains (text response) (error_text (HTTPStatusError m response)))
  ∧ (∀ e, is_status_error e = false →
          error_text e = "Error: " +:+ str_exception e
          ∧ contains (str_exception e) (error_text e))
  ∧ (∀ name arguments req response,
       (run (handle_call_tool rt name arguments)).2 = [req] →
       http_send rt req = inr response →
       is_success response = false →
       (run (handle_call_tool rt name arguments)).1
       = inr [text_content
                ("HTTP Error " +:+ pretty (status_code response) +:+ ": " +:+
                 text response)])
  ∧ (∀ id id' body,
       id ≠ "" →
       format_attachment_id (VStr id) = inr (VStr id') →
       http_send rt
         (mkRequest GET (api_url rt ("api/v1/attachments/" +:+ id'))
            (get_headers rt) None None 30)
       = inr (mkResponse 404 body) →
       run (handle_call_tool rt "get_attachment" {[ "attachmentId" := VStr id ]})
       = (inr [text_content ("HTTP Error 404: " +:+ body)],
          [mkRequest GET (api_url rt ("api/v1/attachments/" +:+ id'))
             (get_headers rt) None None 30])).
Proof.
  split; [|split; [|split; [|split; [|split]]]].
  - intros name arguments. unfold run. rewrite handle_call_tool_run.
    destruct (call_tool rt name arguments []) as [[e|c] tr]; eauto.
  - intros name arguments e. unfold run. rewrite handle_call_tool_run.
    destruct (call_tool rt name arguments []) as [[e'|c] tr]; simpl; congruence.
  - intros m response. split; [done|]. apply error_text_status.
  - intros e He. assert (error_text e = "Error: " +:+ str_exception e) as ->
      by by destruct e.
    split; [done|]. apply contains_end.
  - intros name arguments req response Htr Hsend Hfail.
    destruct (handle_call_tool_outcome rt name arguments)
      as [Hnil|(req' & Hreq & He)]; [congruence|].
    assert (req' = req) as -> by congruence.
    apply (He (HTTPStatusError (status_error_message rt response) response)).
    unfold reply_checked. by rewrite Hsend, Hfail.
  - intros id id' body Hid Hfmt Hsend.
    unfold run. rewrite handle_call_tool_run. unfold call_tool. eval_keys.
    unfold call_get_attachment.
    change (get _ "attachmentId" _) with (VStr id).
    rewrite (truthy_str _ Hid). cbn [negb]. rewrite Hfmt.
    io_unfold. rewrite get_attachment_run. cbn [app str].
    unfold reply_json, reply_checked. by rewrite Hsend.
Qed.

(** ** Unknown tools and resources *)

Example unknown_tool_text :
  run (handle_call_tool sample_runtime "archive_memo" ∅)
  = (inr [text_content "Unknown tool: archive_memo"], []).
Proof. vm_compute. reflexivity. Qed.

(** C5, as the specification states it, fails on the resource reader: an
    unrecognised URI is not answered with a value, the reader raises. *)
Lemma unknown_resource_raises :
  ("memos://trash" ∉ resource_uris)
  ∧ run (handle_read_resource sample_runtime "memos://trash")
    = (inl (ValueError "Unknown resource: memos://trash"), [])
  ∧ ¬ (∃ t, (run (handle_read_resource sample_runtime "memos://trash")).1
            = inr t).
Proof.
  split; [|split].
  - unfold resource_uris. simpl. intros H.
    repeat (apply elem_of_cons in H as [H|H]; [discriminate|]).
    by apply elem_of_nil in H.
  - reflexivity.
  - by intros [t Ht].
Qed.

(** C5, amended. A name that is no tool is answered with the one text block
    ["Unknown tool: <name>"] and nothing is sent.  A URI that is no resource
    makes the resource reader raise [ValueError("Unknown resource: <uri>")]:
    the message names the URI, and it travels as an exception, not as a
    returned value. *)
Theorem unknown_tool_and_resource (rt : runtime) :
  (∀ name arguments,
     name ∉ tool_names →
     run (handle_call_tool rt name arguments)
     = (inr [text_content ("Unknown tool: " +:+ name)], [])
     ∧ contains name ("Unknown tool: " +:+ name))
  ∧ (∀ uri,
       uri ∉ resource_uris →
       run (handle_read_resource rt uri)
       = (inl (ValueError ("Unknown resource: " +:+ uri)), [])
       ∧ contains uri
           (str_exception (ValueError ("Unknown resource: " +:+ uri)))).
Proof.
  split.
  - intros name arguments Hname. split; [|apply contains_end].
    unfold run. rewrite handle_call_tool_run. unfold call_tool.
    repeat match goal with
      | |- context [String.eqb name ?k] =>
          destruct (String.eqb_spec name k) as [->|_];
          [exfalso; apply Hname; unfold tool_names; simpl;
           repeat constructor|]
      end.
    done.
  - intros uri Huri. split; [|apply contains_end].
    unfold run, handle_read_resource.
    destruct (String.eqb_spec uri "memos://memos") as [->|_].
    { exfalso. apply Huri. unfold resource_uris. simpl. repeat constructor. }
    destruct (String.eqb_spec uri "memos://config") as [->|_]; [|done].
    exfalso. apply Huri. unfold resource_uris. simpl. repeat constructor.
Qed.

(** ** Validation of the required arguments *)

Example get_memo_schema_name_refused :
  required_arguments "get_memo" = ["memo_id"]
  ∧ run (handle_call_tool sample_runtime "get_memo" {[ "memo_id" := VStr "42" ]})
    = (inr [text_content "Error: memo_id is required"], []).
Proof. split; vm_compute; reflexivity. Qed.

Example get_memo_other_name_accepted :
  run (handle_call_tool sample_runtime "get_memo" {[ "memoId" := VStr "42" ]})
  = (inr [text_content "{}"],
     [mkRequest GET "http://localhost:5230/api/v1/memos/42"
        {[ "Content-Type" := "application/json" ]} None None 30]).
Proof. vm_compute. reflexivity. Qed.

Example list_memo_attachments_schema_name_refused :
  required_arguments "list_memo_attachments" = ["memoId"]
  ∧ run (handle_call_tool sample_runtime "list_memo_attachments"
           {[ "memoId" := VStr "42" ]})
    = (inr [text_content "Error: memo_id is required"], []).
Proof. split; vm_compute; reflexivity. Qed.

(** C1, as the specification states it, fails on [set_memo_attachments]: the
    required argument [attachments] is given as the empty list, and the call
    is not refused but sent. *)
Lemma empty_attachments_not_refused :
  let arguments : gmap string value :=
    {[ "memoId" := VStr "1"; "attachments" := VList [] ]} in
  ("set_memo_attachments" ∈ tool_names)
  ∧ (∃ a, a ∈ required_arguments "set_memo_attachments"
          ∧ missing_or_empty arguments a = true)
  ∧ ¬ validation_error
        (run (handle_call_tool sample_runtime "set_memo_attachments" arguments))
  ∧ (run (handle_call_tool sample_runtime "set_memo_attachments" arguments)).2
    = [mkRequest PATCH "http://localhost:5230/api/v1/memos/1/attachments"
         {[ "Content-Type" := "application/json" ]} None
         (Some {[ "name" := VStr "memos/1"; "attachments" := VList [] ]}) 30].
Proof.
  intros arguments. split; [|split; [|split]].
  - unfold tool_names. simpl. repeat constructor.
  - exists "attachments". split; [|reflexivity].
    unfold required_arguments. simpl. repeat constructor.
  - intros [a Ha]. vm_compute in Ha. discriminate Ha.
  - vm_compute. reflexivity.
Qed.

Lemma identifier_str (arguments : gmap string value) a :
  identifiers_are_str arguments → a ∈ ["memoId"; "attachmentId"] →
  ∃ s, get arguments a (VStr "") = VStr s.
Proof.
  intros Hstr Ha. unfold get.
  destruct (arguments !! a) as [v|] eqn:Hv; simpl; [|by eauto].
  by apply (Hstr a v).
Qed.

Ltac find_rejected :=
  match goal with
  | H : truthy (get_opt _ ?k) = false |- _ =>
      exists k; split; [repeat constructor|eval_keys; by rewrite H]
  | H : is_None (get_opt _ ?k) = true |- _ =>
      exists k; split; [repeat constructor|eval_keys; by rewrite H]
  end.

Ltac name_message :=
  first [ by exists "content" | by exists "memo_id" | by exists "attachments"
        | by exists "filename" | by exists "type" | by exists "attachment_id"
        | by exists "update_mask" ].

Ltac not_sent H :=
  first
    [ revert H; case_reply; try case_len; by intros H
    | match goal with
      | E : format_memo_id _ = inl _ |- _ =>
          apply format_memo_id_error in E as ->
      | E : format_attachment_id _ = inl _ |- _ =>
          apply format_attachment_id_error in E as ->
      end;
      exfalso; revert H; unfold text_content, error_text, str_exception;
      intros [= H]; exact (no_attribute_not_required _ _ _ H) ].

Ltac not_rejected Hin Hrej :=
  each_elem Hin; revert Hrej; eval_keys;
  repeat match goal with
    | H : truthy _ = _ |- _ => rewrite H; clear H
    | H : is_None _ = _ |- _ => rewrite H; clear H
    end; done.

Lemma validation_error_iff_rejected rt name arguments :
  name ∈ tools_reading_schema_names →
  validation_error (run (handle_call_tool rt name arguments))
  ↔ ∃ a, a ∈ required_arguments name ∧ rejected name arguments a = true.
Proof.
  intros Hname. unfold validation_error, run. rewrite handle_call_tool_run.
  unfold tools_reading_schema_names in Hname.
  each_elem Hname; unfold call_tool; eval_keys;
    unfold required_arguments, rejected, missing_or_empty;
    simpl List.find; cbv iota beta; cbn [required].
  all: unfold_branches; rewrite ?truthy_get_opt; tool_branch.
  all: split; [intros [a H]|intros (a & Hin & Hrej)].
  all: try find_rejected.
  all: try name_message.
  all: try (by not_sent H).
  all: try (by not_rejected Hin Hrej).
Qed.

Lemma accepted_call_sends rt name arguments :
  name ∈ tools_reading_schema_names →
  (∀ a, a ∈ required_arguments name → rejected name arguments a = false) →
  identifiers_are_str arguments →
  ∃ req, (run (handle_call_tool rt name arguments)).2 = [req].
Proof.
  intros Hname Hacc Hstr. unfold run. rewrite handle_call_tool_run.
  assert (∃ s, get arguments "memoId" (VStr "") = VStr s) as [m Hm]
    by (apply identifier_str; [done|repeat constructor]).
  assert (∃ s, get arguments "attachmentId" (VStr "") = VStr s) as [t Ht]
    by (apply identifier_str; [done|repeat constructor]).
  unfold tools_reading_schema_names in Hname.
  each_elem Hname; unfold call_tool; eval_keys;
    unfold required_arguments, rejected, missing_or_empty in Hacc;
    simpl List.find in Hacc; cbv iota beta in Hacc; cbn [required] in Hacc.
  all: unfold_branches; rewrite ?truthy_get_opt, ?Hm, ?Ht;
    rewrite ?format_memo_id_str, ?format_attachment_id_str; tool_branch.
  all: try (eexists; by case_reply; try case_len).
  all: exfalso;
    match goal with
    | H : truthy (get_opt _ ?k) = false |- _ =>
        specialize (Hacc k ltac:(repeat constructor)); revert Hacc;
        eval_keys; by rewrite H
    | H : is_None (get_opt _ ?k) = true |- _ =>
        specialize (Hacc k ltac:(repeat constructor)); revert Hacc;
        eval_keys; by rewrite H
    end.
Qed.

(** C1, amended. For the tools whose branch reads the required arguments
    under the names the catalogue publishes, the dispatcher answers with a
    validation message and sends nothing exactly when some required argument
    is missing, [None] or empty -- the [attachments] of
    [set_memo_attachments] being refused only when missing or [None].  When
    no required argument is refused and the identifiers are strings, the call
    is handed to its request builder and exactly one request is sent. *)
Theorem validation_of_required_arguments
    (rt : runtime) (name : string) (arguments : gmap string value) :
  name ∈ tools_reading_schema_names →
  (validation_error (run (handle_call_tool rt name arguments))
   ↔ ∃ a, a ∈ required_arguments name ∧ rejected name arguments a = true)
  ∧ ((∀ a, a ∈ required_arguments name → rejected name arguments a = false) →
     identifiers_are_str arguments →
     ¬ validation_error (run (handle_call_tool rt name arguments))
     ∧ ∃ req, (run (handle_call_tool rt name arguments)).2 = [req]).
Proof.
  intros Hname. split; [by apply validation_error_iff_rejected|].
  intros Hacc Hstr. split; [|by apply accepted_call_sends].
  rewrite validation_error_iff_rejected by done.
  intros (a & Hin & Hrej). by rewrite (Hacc a Hin) in Hrej.
Qed.

Lemma validation_of_required_arguments_witness :
  let arguments : gmap string value := {[ "attachmentId" := VStr "" ]} in
  ("update_attachment" ∈ tools_reading_schema_names)
  ∧ validation_error
      (run (handle_call_tool sample_runtime "update_attachment" arguments)).
Proof.
  intros arguments.
  assert ("update_attachment" ∈ tools_reading_schema_names) as Hname
    by (unfold tools_reading_schema_names; repeat constructor).
  split; [exact Hname|].
  apply (validation_of_required_arguments sample_runtime "update_attachment"
           arguments Hname).
  exists "attachmentId". split; [|reflexivity].
  unfold required_arguments. simpl. repeat constructor.
Defined.

(** * Further properties *)

(** ** Shape of the traffic *)

Lemma call_tool_methods rt name arguments :
  emits (sent_by (tool_method name)) (call_tool rt name arguments).
Proof.
  unfold call_tool.
  repeat match goal with
    | |- context [String.eqb name ?k] =>
        destruct (String.eqb_spec name k) as [->|_]
    end;
    unfold call_create_memo, call_list_memos, call_get_memo, call_update_memo,
      call_delete_memo, call_list_memo_attachments, call_set_memo_attachments,
      call_create_attachment, call_get_attachment, call_list_attachments,
      call_update_attachment, call_delete_attachment,
      create_memo, list_memos, get_memo, update_memo, delete_memo,
      list_memo_attachments, set_memo_attachments, create_attachment,
      get_attachment, list_attachments, update_attachment, delete_attachment,
      client_post, client_get, client_patch, client_delete;
    repeat emits_step; done.
Qed.


Lemma emits_run {A} Q (m : IO A) : emits Q m → Forall Q (run m).2.
Proof.
  intros He. destruct (He []) as (reqs & Heq & Hreqs). unfold run.
  by rewrite Heq.
Qed.

Lemma handle_call_tool_emits Q rt name arguments :
  emits Q (call_tool rt name arguments) →
  emits Q (handle_call_tool rt name arguments).
Proof.
  intros He. unfold handle_call_tool.
  apply emits_try; [done|]. intros e. apply error_response_emits.
Qed.

(** X1. Each tool talks to the remote API with the one HTTP method of its
    operation; in particular the tools that read never send a request that
    changes the remote state. *)
Theorem tool_requests_use_tool_method (rt : runtime) :
  (∀ name arguments,
     Forall (sent_by (tool_method name))
       (run (handle_call_tool rt name arguments)).2)
  ∧ (∀ name arguments,
       name ∈ ["get_memo"; "list_memos"; "list_memo_attachments";
               "get_attachment"; "list_attachments"] →
       Forall (sent_by GET) (run (handle_call_tool rt name arguments)).2)
  ∧ (∀ uri, Forall (sent_by GET) (run (handle_read_resource rt uri)).2).
Proof.
  split; [|split].
  - intros name arguments. apply emits_run, handle_call_tool_emits.
    apply call_tool_methods.
  - intros name arguments Hname.
    assert (tool_method name = GET) as <- by (each_elem Hname; reflexivity).
    apply emits_run, handle_call_tool_emits, call_tool_methods.
  - intros uri. apply emits_run.
    unfold handle_read_resource, list_memos, client_get.
    repeat emits_step; done.
Qed.


(** ** Responses *)

(** X3. A tool call is answered with exactly one content block of type
    ["text"], after at most one request. *)
Theorem one_text_block_per_call (rt : runtime) (name : string)
    (arguments : gmap string value) :
  (∃ t, (run (handle_call_tool rt name arguments)).1 = inr [text_content t])
  ∧ (length (run (handle_call_tool rt name arguments)).2 ≤ 1)%nat.
Proof.
  split.
  - unfold run. rewrite handle_call_tool_run.
    each_tool name; tool_branch; eauto;
      case_reply; try case_len; unfold json_text; eauto.
  - destruct (handle_call_tool_outcome rt name arguments)
      as [->|(req & -> & _)]; simpl; lia.
Qed.

(** X4. When the request of a tool that reads or writes a document is answered
    with a success status, the response is the pretty-printed JSON document of
    the reply ([indent=2], [ensure_ascii=False]); if the body of the reply is
    no JSON, the response is the error text of the decoding failure, although
    the remote API has carried out the request. *)
Theorem success_renders_reply_json
    (rt : runtime) (name : string) (arguments : gmap string value)
    (req : request) (response : Response) :
  name ∈ json_tools →
  (run (handle_call_tool rt name arguments)).2 = [req] →
  http_send rt req = inr response →
  is_success response = true →
  (run (handle_call_tool rt name arguments)).1
  = inr [text_content
           match response_json rt response with
           | inr document => json_dumps rt (Some 2) false document
           | inl e => error_text e
           end].
Proof.
  intros Hname Htr Hsend Hok.
  assert (reply_json rt req = response_json rt response) as Hreply.
  { unfold reply_json, reply_checked. by rewrite Hsend, Hok. }
  revert Htr. unfold run. rewrite handle_call_tool_run.
  unfold json_tools in Hname.
  each_elem Hname; unfold call_tool; eval_keys; tool_branch; try done.
  all: case_reply; intros [= <-]; rewrite Hreply in *;
    match goal with H : response_json _ _ = _ |- _ => by rewrite H end.
Qed.

(** ** Confirmations of the operations without a document *)

(** X5. [delete_memo] with a non-empty string [memoId] sends one DELETE to the
    memo of the normalised identifier, and on a success status confirms with
    the identifier as the caller wrote it. *)
Theorem delete_memo_confirms_original
    (rt : runtime) (arguments : gmap string value) (m : string) :
  arguments !! "memoId" = Some (VStr m) →
  m ≠ "" →
  ∃ id,
    format_memo_id (VStr m) = inr (VStr id)
    ∧ let req :=
        mkRequest DELETE (api_url rt ("api/v1/memos/" +:+ id))
          (get_headers rt) None None 30 in
      (run (handle_call_tool rt "delete_memo" arguments)).2 = [req]
      ∧ (∀ response,
           http_send rt req = inr response → is_success response = true →
           (run (handle_call_tool rt "delete_memo" arguments)).1
           = inr [text_content ("Successfully deleted memo: " +:+ m)]).
Proof.
  intros Hid Hm.
  eexists. split; [apply format_memo_id_str|].
  intros req. unfold run. rewrite !handle_call_tool_run.
  unfold call_tool. eval_keys.
  unfold call_delete_memo, get. rewrite Hid. cbn [default from_option id].
  rewrite (truthy_str _ Hm). cbn [negb].
  rewrite format_memo_id_str.
  io_unfold. rewrite delete_memo_run. simpl app.
  change (mkRequest _ _ _ _ _ _) with req.
  split.
  - by destruct (reply_unit rt req).
  - intros response Hsend Hok. unfold reply_unit, reply_checked.
    by rewrite Hsend, Hok.
Qed.

Lemma delete_memo_confirms_original_witness :
  ∃ id,
    format_memo_id (VStr "memos/7") = inr (VStr id)
    ∧ let req :=
        mkRequest DELETE (api_url sample_runtime ("api/v1/memos/" +:+ id))
          (get_headers sample_runtime) None None 30 in
      (run (handle_call_tool sample_runtime "delete_memo"
              {[ "memoId" := VStr "memos/7" ]})).2 = [req]
      ∧ (∀ response,
           http_send sample_runtime req = inr response →
           is_success response = true →
           (run (handle_call_tool sample_runtime "delete_memo"
                   {[ "memoId" := VStr "memos/7" ]})).1
           = inr [text_content ("Successfully deleted memo: " +:+ "memos/7")]).
Proof.
  apply (delete_memo_confirms_original sample_runtime
           {[ "memoId" := VStr "memos/7" ]} "memos/7").
  - reflexivity.
  - discriminate.
Defined.

(** X6. [delete_attachment] with a non-empty string [attachmentId] sends one
    DELETE to the attachment of the normalised identifier, and on a success
    status confirms with the normalised identifier: the prefix the caller
    wrote is gone from the confirmation. *)
Theorem delete_attachment_confirms_normalised
    (rt : runtime) (arguments : gmap string value) (a : string) :
  arguments !! "attachmentId" = Some (VStr a) →
  a ≠ "" →
  ∃ id,
    format_attachment_id (VStr a) = inr (VStr id)
    ∧ let req :=
        mkRequest DELETE (api_url rt ("api/v1/attachments/" +:+ id))
          (get_headers rt) None None 30 in
      (run (handle_call_tool rt "delete_attachment" arguments)).2 = [req]
      ∧ (∀ response,
           http_send rt req = inr response → is_success response = true →
           (run (handle_call_tool rt "delete_attachment" arguments)).1
           = inr [text_content ("Successfully deleted attachment: " +:+ id)]).
Proof.
  intros Hid Ha.
  eexists. split; [apply format_attachment_id_str|].
  intros req. unfold run. rewrite !handle_call_tool_run.
  unfold call_tool. eval_keys.
  unfold call_delete_attachment, get. rewrite Hid.
  cbn [default from_option id].
  rewrite (truthy_str _ Ha). cbn [negb].
  rewrite format_attachment_id_str.
  io_unfold. rewrite delete_attachment_run. simpl app.
  change (mkRequest _ _ _ _ _ _) with req.
  split.
  - by destruct (reply_unit rt req).
  - intros response Hsend Hok. unfold reply_unit, reply_checked.
    by rewrite Hsend, Hok.
Qed.

Lemma delete_attachment_confirms_normalised_witness :
  ∃ id,
    format_attachment_id (VStr "attachments/9") = inr (VStr id)
    ∧ let req :=
        mkRequest DELETE
          (api_url sample_runtime ("api/v1/attachments/" +:+ id))
          (get_headers sample_runtime) None None 30 in
      (run (handle_call_tool sample_runtime "delete_attachment"
              {[ "attachmentId" := VStr "attachments/9" ]})).2 = [req]
      ∧ (∀ response,
           http_send sample_runtime req = inr response →
           is_success response = true →
           (run (handle_call_tool sample_runtime "delete_attachment"
                   {[ "attachmentId" := VStr "attachments/9" ]})).1
           = inr [text_content ("Successfully deleted attachment: " +:+ id)]).
Proof.
  apply (delete_attachment_confirms_normalised sample_runtime
           {[ "attachmentId" := VStr "attachments/9" ]} "attachments/9").
  - reflexivity.
  - discriminate.
Defined.

Example delete_attachment_call :
  run (handle_call_tool sample_runtime "delete_attachment"
         {[ "attachmentId" := VStr "attachments/9" ]})
  = (inr [text_content "Successfully deleted attachment: 9"],
     [mkRequest DELETE "http://localhost:5230/api/v1/attachments/9"
        {[ "Content-Type" := "application/json" ]} None None 30]).
Proof. vm_compute. reflexivity. Qed.



Example set_memo_attachments_number :
  run (handle_call_tool sample_runtime "set_memo_attachments"
         {[ "memoId" := VStr "7"; "attachments" := VInt 3 ]})
  = (inr [text_content "Error: object of type 'int' has no len()"],
     [mkRequest PATCH "http://localhost:5230/api/v1/memos/7/attachments"
        {[ "Content-Type" := "application/json" ]} None
        (Some {[ "name" := VStr "memos/7"; "attachments" := VInt 3 ]}) 30]).
Proof. vm_compute. reflexivity. Qed.

Lemma success_renders_reply_json_witness :
  (run (handle_call_tool sample_runtime "get_memo" {[ "memoId" := VStr "42" ]})).1
  = inr [text_content
           match response_json sample_runtime (mkResponse 200 "{}") with
           | inr document => json_dumps sample_runtime (Some 2) false document
           | inl e => error_text e
           end].
Proof.
  apply (success_renders_reply_json sample_runtime "get_memo"
           {[ "memoId" := VStr "42" ]}
           (mkRequest GET (api_url sample_runtime "api/v1/memos/42")
              (get_headers sample_runtime) None None 30)
           (mkResponse 200 "{}")).
  - unfold json_tools. repeat constructor.
  - vm_compute. reflexivity.
  - reflexivity.
  - reflexivity.
Defined.

(** ** Identifiers of the wrong type, and of the wrong name *)

(** X8. An identifier that is given but is no string never reaches the
    network: the call is answered without any request, with a validation
    message or with the text of the [AttributeError] its normalisation
    raises. *)
Theorem non_string_identifier_sends_nothing
    (rt : runtime) (name key : string) (arguments : gmap string value)
    (v : value) :
  identifier_key name = Some key →
  arguments !! key = Some v →
  (∀ s, v ≠ VStr s) →
  (run (handle_call_tool rt name arguments)).2 = []
  ∧ (validation_error (run (handle_call_tool rt name arguments))
     ∨ (run (handle_call_tool rt name arguments)).1
       = inr [text_content
                ("Error: '" +:+ type_name v +:+
                 "' object has no attribute 'startswith'")]).
Proof.
  intros Hkey Hv Hstr. unfold validation_error, run.
  rewrite handle_call_tool_run. revert Hkey. unfold identifier_key.
  each_tool name;
    repeat match goal with
      | H : String.eqb name _ = true |- _ => apply String.eqb_eq in H as ->
      | H : String.eqb name _ = false |- _ => clear H
      end;
    eval_keys; try done; intros [= <-].
  all: unfold_branches; unfold get; rewrite Hv; cbn [default from_option id].
  all: assert (format_memo_id v
               = inl (AttributeError (no_attribute v "startswith")))
         as Hmemo by (destruct v; try done; by destruct (Hstr s)).
  all: assert (format_attachment_id v
               = inl (AttributeError (no_attribute v "startswith")))
         as Hatt by (destruct v; try done; by destruct (Hstr s)).
  all: rewrite ?Hmemo, ?Hatt; tool_branch.
  all: split; [done|].
  all: first [ by right | left; name_message ].
Qed.

Lemma non_string_identifier_sends_nothing_witness :
  (run (handle_call_tool sample_runtime "get_memo" {[ "memoId" := VInt 42 ]})).2
  = []
  ∧ (validation_error
       (run (handle_call_tool sample_runtime "get_memo"
               {[ "memoId" := VInt 42 ]}))
     ∨ (run (handle_call_tool sample_runtime "get_memo"
               {[ "memoId" := VInt 42 ]})).1
       = inr [text_content
                ("Error: '" +:+ type_name (VInt 42) +:+
                 "' object has no attribute 'startswith'")]).
Proof.
  apply (non_string_identifier_sends_nothing sample_runtime "get_memo" "memoId"
           {[ "memoId" := VInt 42 ]} (VInt 42)).
  - reflexivity.
  - reflexivity.
  - discriminate.
Defined.

(** X9. [get_memo], [update_memo] and [delete_memo] take the identifier from
    the key [memoId], and [list_memo_attachments] takes it from [memo_id]:
    none of these is the name the catalogue requires for the tool.  The call
    is refused, with nothing sent, exactly when the key that is read is
    missing, [None] or empty -- whatever is given under the required name. *)
Theorem validation_reads_identifier_key
    (rt : runtime) (name key : string) (arguments : gmap string value) :
  name ∈ tools_reading_other_names →
  identifier_key name = Some key →
  (key ∉ required_arguments name)
  ∧ (validation_error (run (handle_call_tool rt name arguments))
     ↔ missing_or_empty arguments key = true)
  ∧ (missing_or_empty arguments key = true →
     run (handle_call_tool rt name arguments)
     = (inr [text_content "Error: memo_id is required"], [])).
Proof.
  intros Hname Hkey. unfold tools_reading_other_names in Hname.
  unfold validation_error, run. rewrite handle_call_tool_run.
  each_elem Hname; injection Hkey as <-.
  all: split;
    [unfold required_arguments; simpl; intros H;
     repeat (apply elem_of_cons in H as [H|H]; [discriminate|]);
     by apply elem_of_nil in H|].
  all: unfold call_tool, missing_or_empty; eval_keys;
    unfold_branches; rewrite ?truthy_get_opt; tool_branch.
  all: split; [split; [intros [a H]|intros Hrej]|intros Hrej]; try done.
  all: try name_message.
  all: by not_sent H.
Qed.

Lemma validation_reads_identifier_key_witness :
  ("memoId" ∉ required_arguments "get_memo")
  ∧ (validation_error
       (run (handle_call_tool sample_runtime "get_memo"
               {[ "memo_id" := VStr "42" ]}))
     ↔ missing_or_empty {[ "memo_id" := VStr "42" ]} "memoId" = true)
  ∧ (missing_or_empty {[ "memo_id" := VStr "42" ]} "memoId" = true →
     run (handle_call_tool sample_runtime "get_memo" {[ "memo_id" := VStr "42" ]})
     = (inr [text_content "Error: memo_id is required"], [])).
Proof.
  apply (validation_reads_identifier_key sample_runtime "get_memo" "memoId"
           {[ "memo_id" := VStr "42" ]}).
  - unfold tools_reading_other_names. repeat constructor.
  - reflexivity.
Defined.

(** ** Arguments that are not read *)

Lemma get_insert_ne (arguments : gmap string value) k v key dflt :
  k ≠ key → get (<[k:=v]> arguments) key dflt = get arguments key dflt.
Proof. intros Hne. unfold get. by rewrite lookup_insert_ne. Qed.

(** X10. An argument under a key the branch of the tool does not read has no
    effect at all: with or without it the call sends the same request and is
    answered the same.  So a misspelt optional argument is dropped silently. *)
Theorem unread_argument_has_no_effect
    (rt : runtime) (name k : string) (v : value)
    (arguments : gmap string value) :
  k ∉ read_keys name →
  run (handle_call_tool rt name (<[k:=v]> arguments))
  = run (handle_call_tool rt name arguments).
Proof.
  intros Hk. unfold run. rewrite !handle_call_tool_run.
  assert (call_tool rt name (<[k:=v]> arguments) = call_tool rt name arguments)
    as ->; [|done].
  revert Hk. unfold read_keys, call_tool.
  repeat match goal with
    | |- context [String.eqb name ?n] =>
        destruct (String.eqb_spec name n) as [->|_]
    end; eval_keys; intros Hk; try done.
  all: unfold_branches; unfold get_opt.
  all: rewrite !get_insert_ne; [done|..].
  all: intros ->; apply Hk; repeat constructor.
Qed.

Lemma unread_argument_has_no_effect_witness :
  run (handle_call_tool sample_runtime "list_attachments"
         (<[ "showDeleted" := VBool true ]> {[ "pageSize" := VInt 5 ]}))
  = run (handle_call_tool sample_runtime "list_attachments"
           {[ "pageSize" := VInt 5 ]}).
Proof.
  apply (unread_argument_has_no_effect sample_runtime "list_attachments"
           "showDeleted" (VBool true) {[ "pageSize" := VInt 5 ]}).
  unfold read_keys. simpl. intros H.
  repeat (apply elem_of_cons in H as [H|H]; [discriminate|]).
  by apply elem_of_nil in H.
Defined.

(** ** Bodies of the create operations *)

Lemma lookup_insert_eqb (d : gmap string value) key v k :
  <[key:=v]> d !! k = if String.eqb key k then Some v else d !! k.
Proof.
  destruct (String.eqb_spec key k) as [->|Hne].
  - apply lookup_insert_eq.
  - by apply lookup_insert_ne.
Qed.

Lemma lookup_singleton_eqb key (v : value) k :
  ({[ key := v ]} : gmap string value) !! k
  = if String.eqb key k then Some v else None.
Proof.
  destruct (String.eqb_spec key k) as [->|Hne].
  - apply lookup_singleton_eq.
  - by apply lookup_singleton_ne.
Qed.

Lemma create_memo_payload_spec rt content visibility state pinned name
    create_time update_time display_time attachments relations property
    location k w :
  create_memo_payload rt content visibility state pinned name create_time
    update_time display_time attachments relations property location
  !! k = Some w
  ↔ (k = "content" ∧ w = content)
    ∨ (k = "visibility" ∧ w = VStr ("VISIBILITY_" +:+ str rt visibility))
    ∨ (k = "state" ∧ w = VStr ("STATE_" +:+ str rt state))
    ∨ (k = "pinned" ∧ truthy pinned = true ∧ w = pinned)
    ∨ ∃ v, (k, v) ∈ create_memo_optional_fields name create_time update_time
                       display_time attachments relations property location
           ∧ v ≠ VNone ∧ w = v.
Proof.
  unfold create_memo_payload, create_memo_optional_fields.
  rewrite !lookup_set_if, !lookup_insert_eqb, lookup_singleton_eqb. split.
  - split_keys k; try done;
      repeat match goal with
        | |- context [is_not_None ?v] => destruct (is_not_None v) eqn:?
        | |- context [truthy ?v] => destruct (truthy v) eqn:?
        end; try done.
    all: intros [= <-];
      first [ by left | by right; left | by do 2 right; left
            | by do 3 right; left | idtac ].
    all: do 4 right; eexists;
      (split; [|split; [by apply is_not_None_true|done]]); set_solver.
  - intros [[-> ->]|[[-> ->]|[[-> ->]|[(-> & Hp & ->)|(v & Hin & Hv & ->)]]]].
    + by eval_keys.
    + by eval_keys.
    + by eval_keys.
    + eval_keys. by rewrite Hp.
    + apply is_not_None_true in Hv. each_field Hin; rewrite Hv; by eval_keys.
Qed.

Lemma sends_request_intro {A} (m : IO A) (P : request → Prop)
    (r : exception + A) (req : request) :
  (∀ tr, m tr = (r, (tr ++ [req])%list)) → P req → sends_request m P.
Proof. intros Hrun HP tr. exists req. by rewrite Hrun. Qed.

(** X11. The body [create_memo] sends always holds [content], [visibility] and
    [state]; it holds [pinned] only for a true value, so [pinned = False] is
    never sent on creation (an update does send it); each further field is
    there exactly when it was given a value other than [None], and is copied
    as it is. *)
Theorem create_memo_body_fields (rt : runtime) :
  (∀ content visibility state pinned name create_time update_time display_time
     attachments relations property location,
     sends_body
       (create_memo rt content visibility state pinned name create_time
          update_time display_time attachments relations property location)
       (λ body, ∀ k w,
          body !! k = Some w
          ↔ (k = "content" ∧ w = content)
            ∨ (k = "visibility"
               ∧ w = VStr ("VISIBILITY_" +:+ str rt visibility))
            ∨ (k = "state" ∧ w = VStr ("STATE_" +:+ str rt state))
            ∨ (k = "pinned" ∧ truthy pinned = true ∧ w = pinned)
            ∨ ∃ v, (k, v) ∈ create_memo_optional_fields name create_time
                               update_time display_time attachments relations
                               property location
                   ∧ v ≠ VNone ∧ w = v))
  ∧ (∀ content visibility state name create_time update_time display_time
       attachments relations property location,
       sends_body
         (create_memo rt content visibility state (VBool false) name
            create_time update_time display_time attachments relations
            property location)
         (λ body, body !! "pinned" = None))
  ∧ (∀ memo_id content visibility state create_time update_time display_time
       attachments relations property location,
       sends_body
         (update_memo rt memo_id content visibility state (VBool false)
            create_time update_time display_time attachments relations
            property location)
         (λ body, body !! "pinned" = Some (VBool false))).
Proof.
  split; [|split]; intros.
  - eapply sends_body_intro; [apply create_memo_run|done|].
    intros k w. apply create_memo_payload_spec.
  - eapply sends_body_intro; [apply create_memo_run|done|].
    unfold create_memo_payload.
    rewrite !lookup_set_if, !lookup_insert_eqb, lookup_singleton_eqb.
    by eval_keys.
  - eapply sends_body_intro; [apply update_memo_run|done|].
    unfold update_memo_payload. rewrite !lookup_set_if. by eval_keys.
Qed.

(** X12. The defaults of [create_memo] stand in for a key that is absent, not
    for a [null]: without the key the body carries ["VISIBILITY_PRIVATE"] and
    ["STATE_NORMAL"], with an explicit [null] it carries
    ["VISIBILITY_None"] and ["STATE_None"]. *)
Theorem create_memo_defaults_need_absent_key
    (rt : runtime) (arguments : gmap string value) :
  truthy (get_opt arguments "content") = true →
  ∃ req body,
    (run (handle_call_tool rt "create_memo" arguments)).2 = [req]
    ∧ json req = Some body
    ∧ (arguments !! "visibility" = None →
       body !! "visibility" = Some (VStr "VISIBILITY_PRIVATE"))
    ∧ (arguments !! "visibility" = Some VNone →
       body !! "visibility" = Some (VStr "VISIBILITY_None"))
    ∧ (arguments !! "state" = None →
       body !! "state" = Some (VStr "STATE_NORMAL"))
    ∧ (arguments !! "state" = Some VNone →
       body !! "state" = Some (VStr "STATE_None")).
Proof.
  intros Hcontent. unfold run. rewrite handle_call_tool_run.
  unfold call_tool. eval_keys. unfold call_create_memo.
  rewrite truthy_get_opt, Hcontent. cbn [negb].
  io_unfold. rewrite create_memo_run. cbn [app].
  eexists _, _. split; [by case_reply|]. split; [done|].
  unfold create_memo_payload.
  rewrite !lookup_set_if, !lookup_insert_eqb, !lookup_singleton_eqb.
  eval_keys. unfold get.
  repeat split; by intros ->.
Qed.

Lemma create_memo_defaults_need_absent_key_witness :
  let arguments : gmap string value :=
    {[ "content" := VStr "note"; "visibility" := VNone ]} in
  ∃ req body,
    (run (handle_call_tool sample_runtime "create_memo" arguments)).2 = [req]
    ∧ json req = Some body
    ∧ (arguments !! "visibility" = None →
       body !! "visibility" = Some (VStr "VISIBILITY_PRIVATE"))
    ∧ (arguments !! "visibility" = Some VNone →
       body !! "visibility" = Some (VStr "VISIBILITY_None"))
    ∧ (arguments !! "state" = None →
       body !! "state" = Some (VStr "STATE_NORMAL"))
    ∧ (arguments !! "state" = Some VNone →
       body !! "state" = Some (VStr "STATE_None")).
Proof.
  intros arguments.
  apply (create_memo_defaults_need_absent_key sample_runtime arguments).
  reflexivity.
Defined.

Example create_memo_call_null_visibility :
  (run (handle_call_tool sample_runtime "create_memo"
          {[ "content" := VStr "note"; "visibility" := VNone ]})).2
  = [mkRequest POST "http://localhost:5230/api/v1/memos"
       {[ "Content-Type" := "application/json" ]} None
       (Some {[ "content" := VStr "note";
                "visibility" := VStr "VISIBILITY_None";
                "state" := VStr "STATE_NORMAL" ]}) 30].
Proof. vm_compute. reflexivity. Qed.

Lemma create_attachment_payload_spec filename type content external_link memo
    k w :
  create_attachment_payload filename type content external_link memo !! k
  = Some w
  ↔ (k = "filename" ∧ w = filename)
    ∨ (k = "type" ∧ w = type)
    ∨ ∃ v, (k, v) ∈ create_attachment_optional_fields content external_link
                       memo
           ∧ v ≠ VNone ∧ w = v.
Proof.
  unfold create_attachment_payload, create_attachment_optional_fields.
  rewrite !lookup_set_if, !lookup_insert_eqb, lookup_singleton_eqb. split.
  - split_keys k; try done;
      repeat match goal with
        | |- context [is_not_None ?v] => destruct (is_not_None v) eqn:?
        end; try done.
    all: intros [= <-]; first [ by left | by right; left | idtac ].
    all: do 2 right; eexists;
      (split; [|split; [by apply is_not_None_true|done]]); set_solver.
  - intros [[-> ->]|[[-> ->]|(v & Hin & Hv & ->)]].
    + by eval_keys.
    + by eval_keys.
    + apply is_not_None_true in Hv. each_field Hin; rewrite Hv; by eval_keys.
Qed.

(** X13. [create_attachment] sends one POST whose body always holds [filename]
    and [type], and holds [content], [externalLink] and [memo] exactly when
    they were given a value other than [None].  A custom attachment
    identifier is appended to the URL as [?attachmentId=...] and is never
    part of the body; without it the URL has no query. *)
Theorem create_attachment_body_and_url (rt : runtime)
    (filename type attachment_id content external_link memo : value) :
  sends_request
    (create_attachment rt filename type attachment_id content external_link
       memo)
    (λ req,
       method req = POST
       ∧ url req
         = api_url rt "api/v1/attachments" +:+
           (if is_None attachment_id then ""
            else "?attachmentId=" +:+ str rt attachment_id)
       ∧ ∃ body,
           json req = Some body
           ∧ body !! "attachmentId" = None
           ∧ ∀ k w,
               body !! k = Some w
               ↔ (k = "filename" ∧ w = filename)
                 ∨ (k = "type" ∧ w = type)
                 ∨ ∃ v, (k, v) ∈ create_attachment_optional_fields content
                                    external_link memo
                        ∧ v ≠ VNone ∧ w = v).
Proof.
  eapply sends_request_intro; [apply create_attachment_run|].
  split; [done|]. split.
  - simpl. unfold is_not_None.
    destruct (is_None attachment_id); simpl; [by rewrite append_empty_r|done].
  - eexists. split; [done|]. split; [|apply create_attachment_payload_spec].
    destruct (create_attachment_payload _ _ _ _ _ !! "attachmentId")
      as [w|] eqn:Hw; [|done].
    apply create_attachment_payload_spec in Hw
      as [[? _]|[[? _]|(v & Hin & _)]]; try done.
    unfold create_attachment_optional_fields in Hin.
    repeat (apply elem_of_cons in Hin as [Hin|Hin]; [discriminate|]).
    by apply elem_of_nil in Hin.
Qed.

(** ** Values that are forwarded *)

(** X14. The list operations forward each query parameter that is given as it
    is, with two exceptions: [state] gets its prefix, and [showDeleted] is
    sent as the string ["true"] or ["false"] after its truth value -- so
    [showDeleted = False] is sent, not left out. *)
Theorem list_parameters_forwarded (rt : runtime) :
  (∀ page_size page_token state order_by filter show_deleted,
     sends_params
       (list_memos rt page_size page_token state order_by filter show_deleted)
       (λ p, ∀ k w,
          p !! k = Some w
          ↔ ∃ v, (k, v) ∈ list_memos_fields page_size page_token state
                             order_by filter show_deleted
                 ∧ v ≠ VNone ∧ w = query_value rt k v))
  ∧ (∀ page_size page_token filter order_by,
       sends_params
         (list_attachments rt page_size page_token filter order_by)
         (λ p, ∀ k w,
            p !! k = Some w
            ↔ ∃ v, (k, v) ∈ list_attachments_fields page_size page_token
                               filter order_by
                   ∧ v ≠ VNone ∧ w = v))
  ∧ (∀ memo_id page_size page_token,
       sends_params
         (list_memo_attachments rt memo_id page_size page_token)
         (λ p, ∀ k w,
            p !! k = Some w
            ↔ ∃ v, (k, v) ∈ list_memo_attachments_fields page_size page_token
                   ∧ v ≠ VNone ∧ w = v))
  ∧ (∀ page_size page_token state order_by filter b,
       sends_params
         (list_memos rt page_size page_token state order_by filter (VBool b))
         (λ p, p !! "showDeleted"
               = Some (VStr (if b then "true" else "false")))).
Proof.
  split; [|split; [|split]]; intros.
  - eapply sends_params_intro; [apply list_memos_run|done|].
    intros k w. apply list_memos_params_spec.
  - eapply sends_params_intro; [apply list_attachments_run|done|].
    intros k w. rewrite (list_attachments_params_spec rt).
    unfold list_attachments_fields. split; intros (v & Hin & Hv & ->);
      exists v; (split; [done|split; [done|]]); by each_field Hin.
  - eapply sends_params_intro; [apply list_memo_attachments_run|done|].
    intros k w. rewrite (list_memo_attachments_params_spec rt).
    unfold list_memo_attachments_fields. split; intros (v & Hin & Hv & ->);
      exists v; (split; [done|split; [done|]]); by each_field Hin.
  - eapply sends_params_intro; [apply list_memos_run|done|].
    unfold list_memos_params. rewrite !lookup_set_if. by eval_keys.
Qed.

(** X15. The update operations forward each body field that is given as it is,
    except [visibility] and [state], which get their prefix; the body of
    [update_attachment] changes no value at all. *)
Theorem update_fields_forwarded (rt : runtime) :
  (∀ memo_id content visibility state pinned create_time update_time
     display_time attachments relations property location,
     sends_body
       (update_memo rt memo_id content visibility state pinned create_time
          update_time display_time attachments relations property location)
       (λ body, ∀ k w,
          body !! k = Some w
          ↔ ∃ v, (k, v) ∈ update_memo_fields content visibility state pinned
                             create_time update_time display_time attachments
                             relations property location
                 ∧ v ≠ VNone ∧ w = body_value rt k v))
  ∧ (∀ attachment_id update_mask filename type content external_link memo,
       sends_body
         (update_attachment rt attachment_id update_mask filename type content
            external_link memo)
         (λ body, ∀ k w,
            body !! k = Some w
            ↔ ∃ v, (k, v) ∈ update_attachment_fields filename type content
                               external_link memo
                   ∧ v ≠ VNone ∧ w = v)).
Proof.
  split; intros.
  - eapply sends_body_intro; [apply update_memo_run|done|].
    intros k w. apply update_memo_payload_spec.
  - eapply sends_body_intro; [apply update_attachment_run|done|].
    intros k w. rewrite (update_attachment_payload_spec rt).
    unfold update_attachment_fields. split; intros (v & Hin & Hv & ->);
      exists v; (split; [done|split; [done|]]); by each_field Hin.
Qed.

(** ** Resources *)




(** ** The base URL *)

Lemma rstrip_app_sep c s : rstrip c (s +:+ String c "") = rstrip c s.
Proof.
  induction s as [|a s IH].
  - change (rstrip c (String c "") = ""). simpl. by rewrite Ascii.eqb_refl.
  - change (rstrip c (String a (s +:+ String c "")) = rstrip c (String a s)).
    simpl. by rewrite IH.
Qed.

Lemma with_environ_agree rt env1 env2 name arguments :
  rstrip "/"%char (get env1 "MEMOS_BASE_URL" "")
  = rstrip "/"%char (get env2 "MEMOS_BASE_URL" "") →
  get env1 "MEMOS_API_KEY" "" = get env2 "MEMOS_API_KEY" "" →
  handle_call_tool (with_environ rt env1) name arguments
  = handle_call_tool (with_environ rt env2) name arguments.
Proof.
  intros Hbase Hkey.
  assert (api_url (with_environ rt env1) = api_url (with_environ rt env2))
    as Hurl.
  { unfold api_url, MEMOS_BASE_URL. cbn [environ with_environ].
    by rewrite Hbase. }
  assert (get_headers (with_environ rt env1)
          = get_headers (with_environ rt env2)) as Hheaders.
  { unfold get_headers, MEMOS_API_KEY. cbn [environ with_environ].
    by rewrite Hkey. }
  unfold handle_call_tool, call_tool.
  unfold_branches.
  unfold create_memo, list_memos, get_memo, update_memo, delete_memo,
    list_memo_attachments, set_memo_attachments, create_attachment,
    get_attachment, list_attachments, update_attachment, delete_attachment.
  rewrite Hurl, Hheaders. reflexivity.
Qed.

(** X18. Slashes at the end of [MEMOS_BASE_URL] make no difference: the base
    URL is stripped of them before the path is joined, so a tool call sends
    the same request and gets the same answer with [base] and with
    [base ++ "/"]. *)
Theorem base_url_trailing_slash_is_dropped
    (rt : runtime) (env : gmap string string) (base : string)
    (name : string) (arguments : gmap string value) :
  run (handle_call_tool
         (with_environ rt (<[ "MEMOS_BASE_URL" := base +:+ "/" ]> env))
         name arguments)
  = run (handle_call_tool
           (with_environ rt (<[ "MEMOS_BASE_URL" := base ]> env))
           name arguments).
Proof.
  unfold run. rewrite (with_environ_agree rt
    (<[ "MEMOS_BASE_URL" := base +:+ "/" ]> env)
    (<[ "MEMOS_BASE_URL" := base ]> env)); [done|..].
  - unfold get. rewrite !lookup_insert_eq. cbn [default from_option id].
    apply rstrip_app_sep.
  - unfold get. by rewrite !lookup_insert_ne.
Qed.

(** ** What normalisation keeps of an identifier *)

Lemma split_no_sep sep s : has_char sep s = false → split sep s = [s].
Proof.
  induction s as [|a s IH]; cbn [split has_char]; [done|].
  intros [Ha Hs]%orb_false_iff. rewrite Ha, (IH Hs). done.
Qed.

Lemma split_last_suffix sep s :
  has_char sep s = true →
  (∃ before, s = before +:+ String sep (last_piece (split sep s)))
  ∧ ∃ p q pieces, split sep s = p :: q :: pieces.
Proof.
  induction s as [|a s IH]; cbn [split has_char]; [done|].
  destruct (Ascii.eqb_spec a sep) as [->|Hne]; cbn [orb].
  - intros _. destruct (has_char sep s) eqn:Hs.
    + destruct (IH eq_refl) as [[before Hbefore] (p & q & pieces & Hsplit)].
      rewrite Hsplit in *. split; [|by eauto]. exists (String sep before).
      unfold last_piece in *. cbn [last] in *.
      change (String sep s = String sep (before +:+ String sep
                (default "" (last (q :: pieces))))).
      by rewrite <- Hbefore.
    + rewrite (split_no_sep _ _ Hs). split; [by exists ""|by eauto].
  - intros Hs.
    destruct (IH Hs) as [[before Hbefore] (p & q & pieces & Hsplit)].
    rewrite Hsplit in *. split; [|by eauto]. exists (String a before).
    unfold last_piece in *. cbn [last] in *.
    change (String a s = String a (before +:+ String sep
              (default "" (last (q :: pieces))))).
    by rewrite <- Hbefore.
Qed.

(** The last piece of a string that holds the separator: it follows the last
    separator and holds none. *)
Lemma last_segment sep s :
  has_char sep s = true →
  ∃ before,
    s = before +:+ String sep (last_piece (split sep s))
    ∧ has_char sep (last_piece (split sep s)) = false.
Proof.
  intros Hs. destruct (split_last_suffix sep s Hs) as [[before Hbefore] _].
  exists before. split; [done|]. apply last_piece_no_sep.
Qed.

Lemma last_char_has_char c s : last_char s = Some c → has_char c s = true.
Proof.
  induction s as [|a s IH]; simpl; [done|].
  destruct (last_char s) as [b|] eqn:Hb.
  - intros [= ->]. rewrite IH by done. apply orb_true_r.
  - intros [= ->]. by rewrite Ascii.eqb_refl.
Qed.

(** X19. Of an identifier written with its resource-type prefix, normalisation
    keeps what follows the last slash and nothing else: the kept part holds
    no slash, and the identifier is some text, a slash, and the kept part.
    So further path segments are dropped along with the prefix. *)
Theorem normalised_identifier_is_last_segment :
  (∀ s, String.prefix "memos/" s = true →
        ∃ before id,
          format_memo_id (VStr s) = inr (VStr id)
          ∧ s = before +:+ "/" +:+ id
          ∧ has_char "/"%char id = false)
  ∧ (∀ s, String.prefix "attachments/" s = true →
          ∃ before id,
            format_attachment_id (VStr s) = inr (VStr id)
            ∧ s = before +:+ "/" +:+ id
            ∧ has_char "/"%char id = false).
Proof.
  split; intros s Hs.
  - destruct (last_segment "/"%char s) as (before & Hbefore & Hid).
    { by apply (prefix_has_char _ "memos/"). }
    exists before, (last_piece (split "/"%char s)).
    by rewrite format_memo_id_str, Hs.
  - destruct (last_segment "/"%char s) as (before & Hbefore & Hid).
    { by apply (prefix_has_char _ "attachments/"). }
    exists before, (last_piece (split "/"%char s)).
    by rewrite format_attachment_id_str, Hs.
Qed.

Lemma slash_terminated_last_piece s :
  has_char "/"%char s = true → last_char s = Some "/"%char →
  last_piece (split "/"%char s) = "".
Proof.
  intros Hs Hlast.
  destruct (last_segment "/"%char s Hs) as (before & Heq & Hid).
  destruct (last_piece (split "/"%char s)) as [|a id]; [done|]. exfalso.
  rewrite Heq in Hlast. rewrite last_char_app in Hlast.
  change (last_char (String "/" (String a id)))
    with (last_char ("/" +:+ String a id)) in Hlast.
  rewrite last_char_app in Hlast.
  destruct (last_char (String a id)) as [c|] eqn:Hc;
    [|simpl in Hc; by destruct (last_char id)].
  injection Hlast as ->. apply last_char_has_char in Hc. congruence.
Qed.

(** X20. Validation looks at the identifier as the caller wrote it, not at what
    normalisation keeps of it.  A prefixed identifier that ends in a slash
    (["memos/"] itself, for one) is not empty, so it passes, and normalises
    to the empty string: [get_memo] and [delete_memo] then send their request
    to the path [api/v1/memos/] with no identifier in it. *)
Theorem slash_terminated_identifier_is_sent_empty
    (rt : runtime) (arguments : gmap string value) (s : string) :
  arguments !! "memoId" = Some (VStr s) →
  String.prefix "memos/" s = true →
  last_char s = Some "/"%char →
  format_memo_id (VStr s) = inr (VStr "")
  ∧ (run (handle_call_tool rt "get_memo" arguments)).2
    = [mkRequest GET (api_url rt "api/v1/memos/") (get_headers rt) None None 30]
  ∧ (run (handle_call_tool rt "delete_memo" arguments)).2
    = [mkRequest DELETE (api_url rt "api/v1/memos/") (get_headers rt) None
         None 30].
Proof.
  intros Hid Hs Hlast.
  assert (format_memo_id (VStr s) = inr (VStr "")) as Hfmt.
  { rewrite format_memo_id_str, Hs.
    rewrite slash_terminated_last_piece; [done| |done].
    by apply (prefix_has_char _ "memos/"). }
  assert (truthy (VStr s) = true) as Htruthy.
  { apply truthy_str. by intros ->. }
  split; [done|].
  unfold run. rewrite !handle_call_tool_run. unfold call_tool. eval_keys.
  unfold call_get_memo, call_delete_memo, get. rewrite Hid.
  cbn [default from_option id]. rewrite Htruthy. cbn [negb]. rewrite Hfmt.
  io_unfold. rewrite get_memo_run, delete_memo_run. cbn [app str].
  split.
  - by destruct (reply_json rt _).
  - by destruct (reply_unit rt _).
Qed.

Lemma slash_terminated_identifier_is_sent_empty_witness :
  format_memo_id (VStr "memos/") = inr (VStr "")
  ∧ (run (handle_call_tool sample_runtime "get_memo"
            {[ "memoId" := VStr "memos/" ]})).2
    = [mkRequest GET (api_url sample_runtime "api/v1/memos/")
         (get_headers sample_runtime) None None 30]
  ∧ (run (handle_call_tool sample_runtime "delete_memo"
            {[ "memoId" := VStr "memos/" ]})).2
    = [mkRequest DELETE (api_url sample_runtime "api/v1/memos/")
         (get_headers sample_runtime) None None 30].
Proof.
  apply (slash_terminated_identifier_is_sent_empty sample_runtime
           {[ "memoId" := VStr "memos/" ]} "memos/"); reflexivity.
Defined.
